(** * depth_image_proc: the XYZL point-cloud nodelet

    A shallow embedding of [point_cloud_xyzl.cpp]
    ([PointCloudXyzlNodelet::imageCb] and [PointCloudXyzlNodelet::convert])
    and the properties of its specification.

    - C++ [float] and [double] are IEEE 754 binary32 and binary64 values,
      computed with the reference operations of [SpecFloat]
      (round to nearest, ties to even).
    - [uint32_t], [int], [uint16_t], [int32_t] and [uint8_t] are integers
      of [Z]; every conversion between them is written out.
    - ROS messages are records; image buffers are lists of bytes read
      through [reinterpret_cast] on a little-endian host.
    - [cv_bridge], OpenCV and [image_geometry] are libraries outside the
      repository: they enter as the operations of the class [VisionLibs],
      and what the proofs need from them is the contract [VisionLibsSpec]. *)

From Stdlib Require Import ZArith List String Bool Lia QArith Qabs Qround.
From Stdlib Require Import Floats.SpecFloat.
Import ListNotations.

Local Open Scope string_scope.
Local Open Scope Z_scope.

Set Implicit Arguments.

(* ================================================================== *)
(** * Numbers *)
(* ================================================================== *)

(** ** Machine integers *)

(** [static_cast<int>] of an unsigned 32-bit value, and the implicit
    conversion of a [uint32_t] to the [int] of a [cv::Size] or a
    [rowRange]: two's complement reinterpretation. *)
Definition to_int (z : Z) : Z := (z + 2 ^ 31) mod 2 ^ 32 - 2 ^ 31.

(** Conversion to [uint32_t]: reduction modulo [2^32]. *)
Definition to_uint32 (z : Z) : Z := z mod 2 ^ 32.

Definition INT_MIN : Z := - 2 ^ 31.

(** ** Floating point *)

(** The value of a finite float as a rational; [None] for infinities and
    NaN. *)
Definition SF2Q (f : spec_float) : option Q :=
  match f with
  | S754_zero _ => Some 0%Q
  | S754_finite s m e =>
      let n := if s then Zneg m else Zpos m in
      Some (match e with
            | Zneg p => Qmake n (2 ^ p)%positive
            | _ => Qmake (n * 2 ^ e) 1
            end)
  | S754_infinity _ | S754_nan => None
  end.

Definition SFis_nan (f : spec_float) : bool :=
  match f with S754_nan => true | _ => false end.

Definition SFis_finite (f : spec_float) : bool :=
  match f with S754_zero _ | S754_finite _ _ _ => true | _ => false end.

Definition SFis_zero (f : spec_float) : bool :=
  match f with S754_zero _ => true | _ => false end.

(** C++ [float]. *)
Module F32.
Definition prec : Z := 24.
Definition emax : Z := 128.

Definition mul : spec_float -> spec_float -> spec_float := SFmul prec emax.
Definition sub : spec_float -> spec_float -> spec_float := SFsub prec emax.
Definition div : spec_float -> spec_float -> spec_float := SFdiv prec emax.

(** Conversion of an integer to [float]. *)
Definition of_Z (z : Z) : spec_float := binary_normalize prec emax z 0 false.

(** [std::numeric_limits<float>::quiet_NaN()]. *)
Definition quiet_NaN : spec_float := S754_nan.

(** The float whose object representation is the 32-bit word [w]. *)
Definition of_bits (w : Z) : spec_float :=
  let s := Z.testbit w 31 in
  let e := Z.land (Z.shiftr w 23) 255 in
  let m := Z.land w (2 ^ 23 - 1) in
  if e =? 0 then
    match m with
    | Zpos p => S754_finite s p (-149)
    | _ => S754_zero s
    end
  else if e =? 255 then
    if m =? 0 then S754_infinity s else S754_nan
  else
    match m + 2 ^ 23 with
    | Zpos p => S754_finite s p (e - 150)
    | _ => S754_nan
    end.

(** Conversion of a [float] to [int]: truncation toward zero. Outside
    the range of [int] (and on NaN) the C++ standard leaves the result
    undefined; the x86-64 conversion instruction returns [INT_MIN]. *)
Definition to_int (f : spec_float) : Z :=
  match f with
  | S754_zero _ => 0
  | S754_finite s m e =>
      let a := match e with
               | Zneg p => Z.shiftr (Zpos m) (Zpos p)
               | _ => Zpos m * 2 ^ e
               end in
      let t := if s then - a else a in
      if (INT_MIN <=? t) && (t <? 2 ^ 31) then t else INT_MIN
  | S754_infinity _ | S754_nan => INT_MIN
  end.
End F32.

(** C++ [double]. *)
Module F64.
Definition prec : Z := 53.
Definition emax : Z := 1024.

Definition mul : spec_float -> spec_float -> spec_float := SFmul prec emax.
Definition div : spec_float -> spec_float -> spec_float := SFdiv prec emax.

Definition of_Z (z : Z) : spec_float := binary_normalize prec emax z 0 false.

(** Promotion of a [float] to [double]: exact. *)
Definition of_float (f : spec_float) : spec_float :=
  match f with
  | S754_finite s m e => binary_round prec emax s m e
  | _ => f
  end.

(** Narrowing of a [double] to [float]: rounded to nearest; a value
    beyond the largest float becomes an infinity. *)
Definition to_float (d : spec_float) : spec_float :=
  match d with
  | S754_finite s m e => binary_round F32.prec F32.emax s m e
  | _ => d
  end.
End F64.

Definition float : Type := spec_float.
Definition double : Type := spec_float.

(** The literal [0.001f]: the float nearest to 1/1000. *)
Definition lit_0_001f : float := F32.div (F32.of_Z 1) (F32.of_Z 1000).

(* ================================================================== *)
(** * Messages *)
(* ================================================================== *)

Record Time := { sec : Z; nsec : Z }.

(** [std_msgs/Header]. *)
Record Header := { seq : Z; stamp : Time; frame_id : string }.

(** [sensor_msgs/Image]: [height], [width] and [step] are [uint32_t]. *)
Record Image := {
  header : Header;
  height : Z;
  width : Z;
  encoding : string;
  is_bigendian : Z;
  step : Z;
  data : list Byte.byte
}.

Record RegionOfInterest := {
  x_offset : Z; y_offset : Z; roi_height : Z; roi_width : Z; do_rectify : bool
}.

(** [sensor_msgs/CameraInfo]: [K] is a row-major 3x3 array of nine
    doubles, [P] a row-major 3x4 array of twelve. *)
Record CameraInfo := {
  info_header : Header;
  info_height : Z;
  info_width : Z;
  distortion_model : string;
  D : list double;
  K : list double;
  R : list double;
  P : list double;
  binning_x : Z;
  binning_y : Z;
  roi : RegionOfInterest
}.

(** [sensor_msgs/PointField] and its datatype codes. *)
Record PointField := { name : string; offset : Z; datatype : Z; count : Z }.

Definition UINT32 : Z := 6.
Definition FLOAT32 : Z := 7.

(** One point of the cloud, as the four [PointCloud2Iterator]s of
    [convert] see it: three floats and an unsigned 32-bit label. *)
Record PointXYZL := { pt_x : float; pt_y : float; pt_z : float; pt_label : Z }.

(** [sensor_msgs/PointCloud2]; the byte buffer is kept as its sequence of
    points ([point_step] bytes each). *)
Record PointCloud2 := {
  pc_header : Header;
  pc_height : Z;
  pc_width : Z;
  fields : list PointField;
  pc_is_bigendian : bool;
  pc_point_step : Z;
  pc_row_step : Z;
  points : list PointXYZL;
  is_dense : bool
}.

(** [sensor_msgs::image_encodings]. *)
Definition TYPE_8UC1 : string := "8UC1".
Definition TYPE_16UC1 : string := "16UC1".
Definition TYPE_32SC1 : string := "32SC1".
Definition TYPE_32FC1 : string := "32FC1".
Definition MONO8 : string := "mono8".

(* ================================================================== *)
(** * Pixel types *)
(* ================================================================== *)

Record uint16_t := mk_uint16 { uint16_val : Z }.
Record int32_t := mk_int32 { int32_val : Z }.
Record uint8_t := mk_uint8 { uint8_val : Z }.

(** The byte at index [i] of a buffer; a read outside the buffer (which
    C++ leaves undefined, and which no image with
    [data.size() = step * height] causes) yields zero. *)
Definition byte_at (d : list Byte.byte) (i : Z) : Z :=
  if i <? 0 then 0 else Z.of_N (Byte.to_N (nth (Z.to_nat i) d Byte.x00)).

(** [n] bytes from offset [off], little-endian. *)
Fixpoint read_le (n : nat) (d : list Byte.byte) (off : Z) : Z :=
  match n with
  | O => 0
  | S k => byte_at d off + 256 * read_le k d (off + 1)
  end.

(** A pixel type [T]: [sizeof(T)] and the element [p[i]] of
    [p = reinterpret_cast<const T*>(&data[0])]. *)
Class PixelType (T : Type) := {
  sizeof : Z;
  load : list Byte.byte -> Z -> T
}.

#[export] Instance pixel_uint16 : PixelType uint16_t := {
  sizeof := 2;
  load d i := mk_uint16 (read_le 2 d (2 * i))
}.

#[export] Instance pixel_float : PixelType float := {
  sizeof := 4;
  load d i := F32.of_bits (read_le 4 d (4 * i))
}.

#[export] Instance pixel_int32 : PixelType int32_t := {
  sizeof := 4;
  load d i := mk_int32 (to_int (read_le 4 d (4 * i)))
}.

#[export] Instance pixel_uint8 : PixelType uint8_t := {
  sizeof := 1;
  load d i := mk_uint8 (read_le 1 d i)
}.

(** A depth sample type: the value [T(1)] and the conversion of a sample
    to [float] in the product [(u - center_x) * depth]. *)
Class DepthType (T : Type) := {
  T_one : T;
  as_float : T -> float
}.

#[export] Instance depth_uint16 : DepthType uint16_t := {
  T_one := mk_uint16 1;
  as_float d := F32.of_Z (uint16_val d)
}.

#[export] Instance depth_float : DepthType float := {
  T_one := F32.of_Z 1;
  as_float d := d
}.

(** A label sample type: the value of a sample after integral promotion.
    The test [label < 0] and the conversion of the assignment
    [*iter_l = label] to [uint32_t] act on that value. *)
Class LabelType (T2 : Type) := {
  label_value : T2 -> Z
}.

#[export] Instance label_int32 : LabelType int32_t := {
  label_value := int32_val
}.

#[export] Instance label_uint8 : LabelType uint8_t := {
  label_value := uint8_val
}.

Definition is_negative {T2 : Type} {LT : LabelType T2} (l : T2) : bool :=
  label_value l <? 0.

Definition as_uint32 {T2 : Type} {LT : LabelType T2} (l : T2) : Z :=
  to_uint32 (label_value l).

(** [DepthTraits<T>] of [depth_image_proc/depth_traits.h]: the header is
    not among the sources, so [convert] takes the trait as a parameter. *)
Class DepthTraits (T : Type) := {
  valid : T -> bool;
  toMeters : T -> float
}.

(** Modelled from the spec: [DepthTraits<uint16_t>] of the missing header
    [depth_traits.h]. The samples are raw integer units (millimetres)
    scaled to metres, and the invalid value is the sentinel zero. *)
Definition DepthTraits_uint16 : DepthTraits uint16_t := {|
  valid d := negb (uint16_val d =? 0);
  toMeters d := F32.mul (F32.of_Z (uint16_val d)) lit_0_001f
|}.

(** Modelled from the spec: [DepthTraits<float>] of the missing header
    [depth_traits.h]. The samples are metres already, and NaN and zero
    are the invalid values. *)
Definition DepthTraits_float : DepthTraits float := {|
  valid d := negb (SFis_nan d) && negb (SFis_zero d);
  toMeters d := d
|}.

(* ================================================================== *)
(** * The libraries the nodelet calls *)
(* ================================================================== *)

(** [cv::InterpolationFlags]. *)
Variant InterpolationFlags := INTER_NEAREST | INTER_LINEAR | INTER_CUBIC | INTER_AREA.

(** The integer value of each enumerator. *)
Definition interpolation_code (flag : InterpolationFlags) : Z :=
  match flag with
  | INTER_NEAREST => 0
  | INTER_LINEAR => 1
  | INTER_CUBIC => 2
  | INTER_AREA => 3
  end.

(** [cv_bridge::CvImage]. *)
Record CvImage (Mat : Type) := {
  cv_header : Header;
  cv_encoding : string;
  image : Mat
}.

(** [image_geometry::PinholeCameraModel], [cv_bridge] and [cv::Mat] with
    the operations [imageCb] and [convert] use. [None] is a thrown
    exception: [cv_bridge::Exception] from the two conversions,
    [cv::Exception] from [rowRange] and [resize]. *)
Class VisionLibs := {
  PinholeCameraModel : Type;
  fromCameraInfo : PinholeCameraModel -> CameraInfo -> PinholeCameraModel;
  fx : PinholeCameraModel -> double;
  fy : PinholeCameraModel -> double;
  cx : PinholeCameraModel -> double;
  cy : PinholeCameraModel -> double;
  Mat : Type;
  mat_rows : Mat -> Z;
  mat_cols : Mat -> Z;
  toCvShare : Image -> string -> option (CvImage Mat);
  toCvCopy : Image -> string -> option (CvImage Mat);
  toImageMsg : CvImage Mat -> Image;
  rowRange : Mat -> Z -> Z -> option Mat;
  (** [cv::resize(src, dst, dsize, fx, fy, interpolation)]: the size, the
      two scale factors and the interpolation, in the order of the
      declaration [resize(InputArray src, OutputArray dst, Size dsize,
      double fx = 0, double fy = 0, int interpolation = INTER_LINEAR)]. *)
  resize : Mat -> Z * Z -> double -> double -> InterpolationFlags -> option Mat
}.

(** Two camera models with the same projection parameters. *)
Definition same_intrinsics {libs : VisionLibs} (m1 m2 : PinholeCameraModel) : Prop :=
  fx m1 = fx m2 /\ fy m1 = fy m2 /\ cx m1 = cx m2 /\ cy m1 = cy m2.

(** What the libraries document and the proofs rely on. *)
Class VisionLibsSpec (libs : VisionLibs) : Prop := {
  (** [fromCameraInfo] sets the projection parameters from the message,
      whatever the model held before. *)
  fromCameraInfo_overwrites :
    forall m1 m2 info, same_intrinsics (fromCameraInfo m1 info) (fromCameraInfo m2 info);
  (** A successful [toCvCopy] to a named encoding has that encoding. *)
  toCvCopy_encoding :
    forall src dst cv, dst <> "" -> toCvCopy src dst = Some cv -> cv_encoding cv = dst;
  (** [toImageMsg] copies encoding, header and matrix size. *)
  toImageMsg_encoding : forall cv, encoding (toImageMsg cv) = cv_encoding cv;
  toImageMsg_size :
    forall cv, width (toImageMsg cv) = mat_cols (image cv) /\
               height (toImageMsg cv) = mat_rows (image cv);
  (** A successful [resize] to a given non-empty [cv::Size] has that
      size. *)
  resize_size :
    forall src w h f_x f_y interp dst,
      0 < w -> 0 < h ->
      resize src (w, h) f_x f_y interp = Some dst -> mat_cols dst = w /\ mat_rows dst = h
}.

(** [sensor_msgs::PointCloud2Modifier::setPointCloud2Fields]: the fields
    in order, each at the running offset, then [point_step], [row_step]
    and a buffer of [height * width] zeroed points. *)
Definition sizeOfPointField (datatype : Z) : Z :=
  if (datatype =? 1) || (datatype =? 2) then 1
  else if (datatype =? 3) || (datatype =? 4) then 2
  else if (datatype =? 5) || (datatype =? 6) || (datatype =? 7) then 4
  else if datatype =? 8 then 8
  else 0.

Fixpoint addPointFields (decl : list (string * Z * Z)) (off : Z) : list PointField * Z :=
  match decl with
  | [] => ([], off)
  | (n, c, dt) :: rest =>
      let (fs, off') := addPointFields rest (off + c * sizeOfPointField dt) in
      ({| name := n; offset := off; datatype := dt; count := c |} :: fs, off')
  end.

Definition zero_point : PointXYZL :=
  {| pt_x := S754_zero false; pt_y := S754_zero false; pt_z := S754_zero false; pt_label := 0 |}.

Definition setPointCloud2Fields (cloud_msg : PointCloud2) (decl : list (string * Z * Z)) : PointCloud2 :=
  let (fs, off) := addPointFields decl 0 in
  {| pc_header := pc_header cloud_msg;
     pc_height := pc_height cloud_msg;
     pc_width := pc_width cloud_msg;
     fields := fs;
     pc_is_bigendian := pc_is_bigendian cloud_msg;
     pc_point_step := off;
     pc_row_step := to_uint32 (pc_width cloud_msg * off);
     points := repeat zero_point (Z.to_nat (pc_height cloud_msg * pc_width cloud_msg));
     is_dense := is_dense cloud_msg |}.

(** Assignment through an iterator standing at point [i]. *)
Fixpoint write {A : Type} (i : nat) (a : A) (l : list A) : list A :=
  match l, i with
  | [], _ => []
  | _ :: t, O => a :: t
  | h :: t, S j => h :: write j a t
  end.

(* ================================================================== *)
(** * [PointCloudXyzlNodelet::convert] *)
(* ================================================================== *)

Section Convert.

Context {libs : VisionLibs}.
Context {T T2 : Type}.
Context {PT : PixelType T} {DT : DepthType T} {traits : DepthTraits T}.
Context {PT2 : PixelType T2} {LT : LabelType T2}.

(** The body of the inner loop: the point written for pixel [(v, u)]. *)
Definition convert_point (center_x center_y constant_x constant_y : float)
  (v u : Z) (depth : T) (label : T2) : PointXYZL :=
  let bad_point := F32.quiet_NaN in
  if negb (valid depth) || is_negative label then
    {| pt_x := bad_point; pt_y := bad_point; pt_z := bad_point;
       pt_label := as_uint32 label |}
  else
    {| pt_x := F32.mul (F32.mul (F32.sub (F32.of_Z u) center_x) (as_float depth)) constant_x;
       pt_y := F32.mul (F32.mul (F32.sub (F32.of_Z v) center_y) (as_float depth)) constant_y;
       pt_z := toMeters depth;
       pt_label := as_uint32 label |}.

(** The inner [for]: [n] iterations left, column [u], the four iterators
    at point [it]. *)
Fixpoint convert_row (center_x center_y constant_x constant_y : float)
  (depth_data label_data : list Byte.byte) (depth_row label_row : Z)
  (v : Z) (n : nat) (u : Z) (it : nat) (pts : list PointXYZL) : nat * list PointXYZL :=
  match n with
  | O => (it, pts)
  | S n' =>
      let depth := load (T := T) depth_data (depth_row + u) in
      let label := load (T := T2) label_data (label_row + u) in
      convert_row center_x center_y constant_x constant_y
        depth_data label_data depth_row label_row v n' (u + 1) (S it)
        (write it (convert_point center_x center_y constant_x constant_y v u depth label) pts)
  end.

(** The outer [for]: [n] rows left, row [v], the row pointers at elements
    [depth_row] and [label_row]. *)
Fixpoint convert_rows (center_x center_y constant_x constant_y : float)
  (depth_data label_data : list Byte.byte) (row_step label_row_step : Z) (w : nat)
  (n : nat) (v : Z) (depth_row label_row : Z) (it : nat) (pts : list PointXYZL)
  : nat * list PointXYZL :=
  match n with
  | O => (it, pts)
  | S n' =>
      let (it', pts') :=
        convert_row center_x center_y constant_x constant_y
          depth_data label_data depth_row label_row v w 0 it pts in
      convert_rows center_x center_y constant_x constant_y
        depth_data label_data row_step label_row_step w
        n' (v + 1) (depth_row + row_step) (label_row + label_row_step) it' pts'
  end.

Definition convert (model_ : PinholeCameraModel)
  (depth_msg label_msg : Image) (cloud_msg : PointCloud2) : PointCloud2 :=
  let center_x := F64.to_float (cx model_) in
  let center_y := F64.to_float (cy model_) in
  let unit_scaling := F64.of_float (toMeters (T_one (T := T))) in
  let constant_x := F64.to_float (F64.div unit_scaling (fx model_)) in
  let constant_y := F64.to_float (F64.div unit_scaling (fy model_)) in
  let row_step := to_int (step depth_msg / sizeof (T := T)) in
  let label_row_step := to_int (step label_msg / sizeof (T := T2)) in
  let (_, pts) :=
    convert_rows center_x center_y constant_x constant_y
      (data depth_msg) (data label_msg) row_step label_row_step
      (Z.to_nat (to_int (pc_width cloud_msg)))
      (Z.to_nat (to_int (pc_height cloud_msg))) 0 0 0 O (points cloud_msg) in
  {| pc_header := pc_header cloud_msg;
     pc_height := pc_height cloud_msg;
     pc_width := pc_width cloud_msg;
     fields := fields cloud_msg;
     pc_is_bigendian := pc_is_bigendian cloud_msg;
     pc_point_step := pc_point_step cloud_msg;
     pc_row_step := pc_row_step cloud_msg;
     points := pts;
     is_dense := is_dense cloud_msg |}.

(** The point [convert] computes for pixel [(v, u)] when the row pointers
    stand at [depth_row] and [label_row]. *)
Definition pixel_at (center_x center_y constant_x constant_y : float)
  (depth_data label_data : list Byte.byte) (depth_row label_row v u : Z) : PointXYZL :=
  convert_point center_x center_y constant_x constant_y v u
    (load (T := T) depth_data (depth_row + u))
    (load (T := T2) label_data (label_row + u)).

(** [depth_row[u]] and [label_row[u]] in row [v]. *)
Definition depth_at (depth_msg : Image) (v u : Z) : T :=
  load (data depth_msg) (v * to_int (step depth_msg / sizeof (T := T)) + u).

Definition label_at (label_msg : Image) (v u : Z) : T2 :=
  load (data label_msg) (v * to_int (step label_msg / sizeof (T := T2)) + u).

(** The locals [center_x], [center_y], [constant_x], [constant_y]. *)
Definition center_x_of (model : PinholeCameraModel) : float := F64.to_float (cx model).
Definition center_y_of (model : PinholeCameraModel) : float := F64.to_float (cy model).
Definition constant_x_of (model : PinholeCameraModel) : float :=
  F64.to_float (F64.div (F64.of_float (toMeters (T_one (T := T)))) (fx model)).
Definition constant_y_of (model : PinholeCameraModel) : float :=
  F64.to_float (F64.div (F64.of_float (toMeters (T_one (T := T)))) (fy model)).

(** The point of pixel [(v, u)]. *)
Definition point_of (model : PinholeCameraModel) (depth_msg label_msg : Image) (v u : Z)
  : PointXYZL :=
  convert_point (center_x_of model) (center_y_of model)
                (constant_x_of model) (constant_y_of model)
                v u (depth_at depth_msg v u) (label_at label_msg v u).

End Convert.

(* ================================================================== *)
(** * [PointCloudXyzlNodelet::imageCb] *)
(* ================================================================== *)

(** How a callback ends without publishing: one of the four logged
    [return]s, or a [cv::Exception] no handler of [imageCb] catches. *)
Variant Exit :=
  | FrameIdMismatch
  | CvBridgeException
  | UnsupportedLabelEncoding
  | UnsupportedDepthEncoding
  | UncaughtCvException.

Variant Outcome :=
  | Published (cloud_msg : PointCloud2)
  | NotPublished (why : Exit).

(** The instantiation of [convert] the encodings select. *)
Variant Conversion :=
  | convert_uint16_int32
  | convert_uint16_uint8
  | convert_float_int32
  | convert_float_uint8.

(** Early exits: [inl] leaves the callback, [inr] carries on. *)
Definition bind {A B : Type} (r : Exit + A) (k : A -> Exit + B) : Exit + B :=
  match r with
  | inl e => inl e
  | inr a => k a
  end.

Notation "x <- r ;; k" := (bind r (fun x => k))
  (at level 61, r at next level, right associativity).

Definition try_ {A : Type} (o : option A) (e : Exit) : Exit + A :=
  match o with
  | Some a => inr a
  | None => inl e
  end.

(** One scaled entry: [d * ratio], the float promoted to double. *)
Definition scale_entry (ratio : float) (d : double) : double :=
  F64.mul d (F64.of_float ratio).

(** [a[i] *= ratio] on an array of doubles, [ratio] a float. *)
Fixpoint scale_at (i : nat) (ratio : float) (a : list double) : list double :=
  match a, i with
  | [], _ => []
  | d :: t, O => scale_entry ratio d :: t
  | d :: t, S j => d :: scale_at j ratio t
  end.

(** The label encoding test of line 207, as written. *)
Definition needs_conversion (e : string) : bool :=
  negb (String.eqb e TYPE_32SC1) || negb (String.eqb e TYPE_8UC1).

(** The encoding dispatch of lines 236-260. *)
Definition select_convert (depth_encoding label_encoding : string) : option Conversion :=
  if String.eqb depth_encoding TYPE_16UC1 && String.eqb label_encoding TYPE_32SC1
  then Some convert_uint16_int32
  else if String.eqb depth_encoding TYPE_16UC1 && String.eqb label_encoding MONO8
  then Some convert_uint16_uint8
  else if String.eqb depth_encoding TYPE_32FC1 && String.eqb label_encoding TYPE_32SC1
  then Some convert_float_int32
  else if String.eqb depth_encoding TYPE_32FC1 && String.eqb label_encoding MONO8
  then Some convert_float_uint8
  else None.

(** The depth encodings the dispatch accepts. *)
Definition supported_depth (e : string) : Prop := e = TYPE_16UC1 \/ e = TYPE_32FC1.

(** Lines 220-233: the new cloud message, before [convert] fills it. *)
Definition new_cloud (depth_msg : Image) : PointCloud2 :=
  setPointCloud2Fields
    {| pc_header := header depth_msg;
       pc_height := height depth_msg;
       pc_width := width depth_msg;
       fields := [];
       pc_is_bigendian := false;
       pc_point_step := 0;
       pc_row_step := 0;
       points := [];
       is_dense := false |}
    [("x", 1, FLOAT32); ("y", 1, FLOAT32); ("z", 1, FLOAT32); ("label", 1, UINT32)].

(** An image whose dimensions, read as [int], are themselves. *)
Definition well_sized (img : Image) : Prop :=
  0 <= width img < 2 ^ 31 /\ 0 <= height img < 2 ^ 31.

(** The schema [imageCb] declares. *)
Definition xyzl_fields : list PointField :=
  [ {| name := "x"; offset := 0; datatype := FLOAT32; count := 1 |};
    {| name := "y"; offset := 4; datatype := FLOAT32; count := 1 |};
    {| name := "z"; offset := 8; datatype := FLOAT32; count := 1 |};
    {| name := "label"; offset := 12; datatype := UINT32; count := 1 |} ].

(** The defaults of the last two parameters of [cv::resize]. *)
Definition resize_default_fy : double := F64.of_Z 0.
Definition resize_default_interpolation : InterpolationFlags := INTER_LINEAR.

Section ImageCb.

Context {libs : VisionLibs}.
Context {traits_uint16 : DepthTraits uint16_t} {traits_float : DepthTraits float}.

(** The member state of the nodelet that [imageCb] reads and writes. *)
Record Nodelet := { model_ : PinholeCameraModel }.

(** Line 171. *)
Definition resize_ratio (depth_msg label_msg : Image) : float :=
  F32.div (F32.of_Z (width depth_msg)) (F32.of_Z (width label_msg)).

(** Lines 168-179: the camera info at the depth resolution. *)
Definition scaled_info (depth_msg : Image) (ratio : float) (info_msg : CameraInfo) : CameraInfo :=
  {| info_header := info_header info_msg;
     info_height := height depth_msg;
     info_width := width depth_msg;
     distortion_model := distortion_model info_msg;
     D := D info_msg;
     K := scale_at 5 ratio (scale_at 4 ratio (scale_at 2 ratio (scale_at 0 ratio (K info_msg))));
     R := R info_msg;
     P := scale_at 6 ratio (scale_at 5 ratio (scale_at 2 ratio (scale_at 0 ratio (P info_msg))));
     binning_x := binning_x info_msg;
     binning_y := binning_y info_msg;
     roi := roi info_msg |}.

(** The last row of the crop of line 195: [depth_msg->height / ratio],
    a float, converted to the [int] that [rowRange] takes. *)
Definition crop_rows (depth_msg : Image) (ratio : float) : Z :=
  F32.to_int (F32.div (F32.of_Z (height depth_msg)) ratio).

(** Lines 164-204: the label image at the depth resolution, and the
    camera model that goes with it. The model is updated before anything
    can fail, so it is returned on every path. The call of lines 195-198
    has four arguments: [cv::INTER_NEAREST] stands in the place of the
    scale factor [fx], converted to double, and [fy] and the
    interpolation take their defaults. *)
Definition reconcile (model0 : PinholeCameraModel)
  (depth_msg label_msg_in : Image) (info_msg : CameraInfo)
  : PinholeCameraModel * (Exit + Image) :=
  if negb (width depth_msg =? width label_msg_in)
     || negb (height depth_msg =? height label_msg_in)
  then
    let ratio := resize_ratio depth_msg label_msg_in in
    let info_msg_tmp := scaled_info depth_msg ratio info_msg in
    (fromCameraInfo model0 info_msg_tmp,
     cv_ptr <- try_ (toCvShare label_msg_in (encoding label_msg_in)) CvBridgeException ;;
     rows <- try_ (rowRange (image cv_ptr) 0 (crop_rows depth_msg ratio)) UncaughtCvException ;;
     rsz <- try_ (resize rows (to_int (width depth_msg), to_int (height depth_msg))
                         (F64.of_Z (interpolation_code INTER_NEAREST))
                         resize_default_fy resize_default_interpolation)
                 UncaughtCvException ;;
     inr (toImageMsg {| cv_header := cv_header cv_ptr;
                        cv_encoding := cv_encoding cv_ptr;
                        image := rsz |}))
  else
    (model0, inr label_msg_in).

(** Lines 206-218. *)
Definition normalize (label_msg : Image) : Exit + Image :=
  if needs_conversion (encoding label_msg) then
    cv <- try_ (toCvCopy label_msg TYPE_32SC1) UnsupportedLabelEncoding ;;
    inr (toImageMsg cv)
  else
    inr label_msg.

(** Lines 236-260. *)
Definition dispatch (model : PinholeCameraModel)
  (depth_msg label_msg : Image) (cloud_msg : PointCloud2) : Exit + PointCloud2 :=
  match select_convert (encoding depth_msg) (encoding label_msg) with
  | Some convert_uint16_int32 =>
      inr (convert (T := uint16_t) (T2 := int32_t) model depth_msg label_msg cloud_msg)
  | Some convert_uint16_uint8 =>
      inr (convert (T := uint16_t) (T2 := uint8_t) model depth_msg label_msg cloud_msg)
  | Some convert_float_int32 =>
      inr (convert (T := float) (T2 := int32_t) model depth_msg label_msg cloud_msg)
  | Some convert_float_uint8 =>
      inr (convert (T := float) (T2 := uint8_t) model depth_msg label_msg cloud_msg)
  | None => inl UnsupportedDepthEncoding
  end.

(** The label image handed to the dispatch, when the callback gets
    there: lines 154-218. *)
Definition prepared_label (self : Nodelet)
  (depth_msg label_msg_in : Image) (info_msg : CameraInfo) : Exit + Image :=
  if negb (String.eqb (frame_id (header depth_msg)) (frame_id (header label_msg_in)))
  then inl FrameIdMismatch
  else
    label_msg <- snd (reconcile (fromCameraInfo (model_ self) info_msg)
                                depth_msg label_msg_in info_msg) ;;
    normalize label_msg.

(** The callback: the state it leaves and what it publishes. *)
Definition imageCb (self : Nodelet)
  (depth_msg label_msg_in : Image) (info_msg : CameraInfo) : Nodelet * Outcome :=
  if negb (String.eqb (frame_id (header depth_msg)) (frame_id (header label_msg_in)))
  then (self, NotPublished FrameIdMismatch)
  else
    let model1 := fromCameraInfo (model_ self) info_msg in
    let (model2, reconciled) := reconcile model1 depth_msg label_msg_in info_msg in
    ({| model_ := model2 |},
     match (label_msg <- reconciled ;;
            label_msg <- normalize label_msg ;;
            dispatch model2 depth_msg label_msg (new_cloud depth_msg)) with
     | inr cloud_msg => Published cloud_msg
     | inl e => NotPublished e
     end).

(** The camera model [convert] reads: [model_] after lines 162-180. *)
Definition working_model (self : Nodelet)
  (depth_msg label_msg_in : Image) (info_msg : CameraInfo) : PinholeCameraModel :=
  fst (reconcile (fromCameraInfo (model_ self) info_msg) depth_msg label_msg_in info_msg).

(** The nodelet over a sequence of synchronized triples. *)
Definition run (self : Nodelet) (triples : list (Image * Image * CameraInfo)) : Nodelet :=
  fold_left (fun s t => let '(d, l, i) := t in fst (imageCb s d l i)) triples self.

End ImageCb.

(* ================================================================== *)
(** * A plain instance of the libraries *)
(* ================================================================== *)

(** A small executable stand-in for the libraries, enough to run the
    callback on concrete triples: a pinhole model read off the projection
    matrix of an unbinned, full-frame camera; matrices as lists of rows;
    copies between equal encodings and the widening of 8-bit labels;
    nearest-neighbour resizing by the floor of the scaled index, and no
    other interpolation: a resize with any other flag fails. *)
Module Plain.

Record Model := { m_fx : double; m_fy : double; m_cx : double; m_cy : double }.

Definition entry (a : list double) (i : nat) : double := nth i a (S754_zero false).

Definition plain_fromCameraInfo (_ : Model) (info : CameraInfo) : Model :=
  {| m_fx := entry (P info) 0; m_fy := entry (P info) 5;
     m_cx := entry (P info) 2; m_cy := entry (P info) 6 |}.

Record PlainMat := { elem_size : Z; cols : Z; mat_data : list (list Byte.byte) }.

Definition rows (m : PlainMat) : Z := Z.of_nat (List.length (mat_data m)).

Definition elemSize (enc : string) : option Z :=
  if String.eqb enc TYPE_8UC1 || String.eqb enc MONO8 then Some 1
  else if String.eqb enc TYPE_16UC1 then Some 2
  else if String.eqb enc TYPE_32SC1 || String.eqb enc TYPE_32FC1 then Some 4
  else None.

Fixpoint take_rows (n : nat) (stride len : nat) (d : list Byte.byte) : list (list Byte.byte) :=
  match n with
  | O => []
  | S k => firstn len d :: take_rows k stride len (skipn stride d)
  end.

Definition matFromImage (src : Image) : option PlainMat :=
  match elemSize (encoding src) with
  | Some esz =>
      Some {| elem_size := esz; cols := width src;
              mat_data := take_rows (Z.to_nat (height src)) (Z.to_nat (step src))
                                    (Z.to_nat (width src * esz)) (data src) |}
  | None => None
  end.

Definition plain_toCvShare (src : Image) (enc : string) : option (CvImage PlainMat) :=
  if String.eqb enc (encoding src) || String.eqb enc "" then
    match matFromImage src with
    | Some m => Some {| cv_header := header src; cv_encoding := encoding src; image := m |}
    | None => None
    end
  else None.

Definition widen_row (r : list Byte.byte) : list Byte.byte :=
  flat_map (fun b => [b; Byte.x00; Byte.x00; Byte.x00]) r.

Definition plain_toCvCopy (src : Image) (enc : string) : option (CvImage PlainMat) :=
  match matFromImage src with
  | Some m =>
      if String.eqb enc (encoding src) then
        Some {| cv_header := header src; cv_encoding := enc; image := m |}
      else if String.eqb enc TYPE_32SC1 && (elem_size m =? 1) then
        Some {| cv_header := header src; cv_encoding := enc;
                image := {| elem_size := 4; cols := cols m;
                            mat_data := map widen_row (mat_data m) |} |}
      else None
  | None => None
  end.

Definition plain_toImageMsg (cv : CvImage PlainMat) : Image :=
  {| header := cv_header cv;
     height := rows (image cv);
     width := cols (image cv);
     encoding := cv_encoding cv;
     is_bigendian := 0;
     step := cols (image cv) * elem_size (image cv);
     data := List.concat (mat_data (image cv)) |}.

Definition plain_rowRange (m : PlainMat) (startrow endrow : Z) : option PlainMat :=
  if (0 <=? startrow) && (startrow <=? endrow) && (endrow <=? rows m) then
    Some {| elem_size := elem_size m; cols := cols m;
            mat_data := firstn (Z.to_nat (endrow - startrow))
                               (skipn (Z.to_nat startrow) (mat_data m)) |}
  else None.

Definition pixel_of (esz : Z) (r : list Byte.byte) (x : Z) : list Byte.byte :=
  firstn (Z.to_nat esz) (skipn (Z.to_nat (x * esz)) r).

Definition nearest (n_src n_dst i : Z) : Z := Z.min (i * n_src / n_dst) (n_src - 1).

Definition plain_resize (m : PlainMat) (dsize : Z * Z) (f_x f_y : double)
  (interp : InterpolationFlags) : option PlainMat :=
  let (w, h) := dsize in
  match interp with
  | INTER_NEAREST =>
      if (0 <? w) && (0 <? h) && (0 <? rows m) && (0 <? cols m) then
        Some {| elem_size := elem_size m; cols := w;
                mat_data :=
                  map (fun y =>
                         let r := nth (Z.to_nat (nearest (rows m) h (Z.of_nat y))) (mat_data m) [] in
                         flat_map (fun x => pixel_of (elem_size m) r (nearest (cols m) w (Z.of_nat x)))
                                  (List.seq 0 (Z.to_nat w)))
                      (List.seq 0 (Z.to_nat h)) |}
      else None
  | _ => None
  end.

#[export] Instance plain_libs : VisionLibs := {
  PinholeCameraModel := Model;
  fromCameraInfo := plain_fromCameraInfo;
  fx := m_fx; fy := m_fy; cx := m_cx; cy := m_cy;
  Mat := PlainMat;
  mat_rows := rows;
  mat_cols := cols;
  toCvShare := plain_toCvShare;
  toCvCopy := plain_toCvCopy;
  toImageMsg := plain_toImageMsg;
  rowRange := plain_rowRange;
  resize := plain_resize
}.

End Plain.

(* ================================================================== *)
(** * Concrete triples *)
(* ================================================================== *)

Definition byte_of_Z (z : Z) : Byte.byte :=
  match Byte.of_N (Z.to_N (z mod 256)) with
  | Some b => b
  | None => Byte.x00
  end.

(** The [n] bytes of the word [w], little-endian. *)
Fixpoint le_bytes (n : nat) (w : Z) : list Byte.byte :=
  match n with
  | O => []
  | S k => byte_of_Z w :: le_bytes k (w / 256)
  end.

(** A packed image of [w] by [h] pixels of [esz] bytes each. *)
Definition packed_image (frame : string) (enc : string) (w h : Z) (esz : nat)
  (pixels : list Z) : Image :=
  {| header := {| seq := 0; stamp := {| sec := 100; nsec := 0 |}; frame_id := frame |};
     height := h; width := w; encoding := enc; is_bigendian := 0;
     step := w * Z.of_nat esz;
     data := flat_map (le_bytes esz) pixels |}.

Definition dzero : double := S754_zero false.
Definition done : double := F64.of_Z 1.

(** A camera info with focal lengths [f], principal point [(c_x, c_y)],
    no distortion, no binning and no region of interest. *)
Definition pinhole_info (frame : string) (w h : Z) (f_x f_y c_x c_y : double) : CameraInfo :=
  {| info_header := {| seq := 0; stamp := {| sec := 100; nsec := 0 |}; frame_id := frame |};
     info_height := h; info_width := w;
     distortion_model := "plumb_bob";
     D := [dzero; dzero; dzero; dzero; dzero];
     K := [f_x; dzero; c_x; dzero; f_y; c_y; dzero; dzero; done];
     R := [done; dzero; dzero; dzero; done; dzero; dzero; dzero; done];
     P := [f_x; dzero; c_x; dzero; dzero; f_y; c_y; dzero; dzero; dzero; done; dzero];
     binning_x := 0; binning_y := 0;
     roi := {| x_offset := 0; y_offset := 0; roi_height := 0; roi_width := 0;
               do_rectify := false |} |}.

Definition idle : Nodelet (libs := Plain.plain_libs) :=
  Build_Nodelet (libs := Plain.plain_libs) (Plain.Build_Model dzero dzero dzero dzero).

(** Scenario A of the specification: 4x3 depth of 1000 mm, label 7,
    [fx = fy = 100], [cx = 2], [cy = 1.5]. *)
Definition depthA : Image := packed_image "camera" TYPE_16UC1 4 3 2 (repeat 1000 12).
Definition labelA : Image := packed_image "camera" TYPE_32SC1 4 3 4 (repeat 7 12).
Definition infoA : CameraInfo :=
  pinhole_info "camera" 4 3 (F64.of_Z 100) (F64.of_Z 100) (F64.of_Z 2)
               (F64.div (F64.of_Z 3) (F64.of_Z 2)).

(** Scenario B: as A, the label of pixel (row 1, column 2) set to -1. *)
Definition labelB : Image :=
  packed_image "camera" TYPE_32SC1 4 3 4 (repeat 7 6 ++ [2 ^ 32 - 1] ++ repeat 7 5).

(** Scenario C: a label image of half the depth resolution. *)
Definition depthC : Image := packed_image "camera" TYPE_16UC1 4 2 2 (repeat 1000 8).
Definition labelC : Image := packed_image "camera" TYPE_32SC1 2 1 4 [3; 5].
Definition infoC : CameraInfo :=
  pinhole_info "camera" 2 1 (F64.of_Z 50) (F64.of_Z 50) (F64.of_Z 1) (F64.of_Z 1).

(** The callback and the conversions over the plain libraries and the two
    modelled depth traits. *)
Definition plain_imageCb :
  Nodelet (libs := Plain.plain_libs) -> Image -> Image -> CameraInfo ->
  Nodelet (libs := Plain.plain_libs) * Outcome :=
  imageCb (libs := Plain.plain_libs)
          (traits_uint16 := DepthTraits_uint16) (traits_float := DepthTraits_float).

Definition plain_convert_uint16_int32 :
  Plain.Model -> Image -> Image -> PointCloud2 -> PointCloud2 :=
  convert (libs := Plain.plain_libs) (T := uint16_t) (T2 := int32_t)
          (traits := DepthTraits_uint16).

(** The camera model of scenarios A and B. *)
Definition modelA : Plain.Model := Plain.plain_fromCameraInfo (model_ idle) infoA.

(** The far corner of the range: one 16-bit pixel of 65535 mm seen by a
    camera whose principal point lies [2^113] pixels to the left. *)
Definition depth_far : Image := packed_image "camera" TYPE_16UC1 1 1 2 [65535].
Definition label_far : Image := packed_image "camera" TYPE_32SC1 1 1 4 [7].
Definition info_far : CameraInfo :=
  pinhole_info "camera" 1 1 (F64.of_Z 525) (F64.of_Z 525) (F64.of_Z (- 2 ^ 113)) dzero.

(** A wide image (1600 columns, [fx = fy = 400], [cx = 799.5]) whose
    first pixel is 65 m away. *)
Definition depth_wide : Image := packed_image "camera" TYPE_16UC1 1600 1 2 (repeat 65000 1600).
Definition label_wide : Image := packed_image "camera" TYPE_32SC1 1600 1 4 (repeat 7 1600).
Definition info_wide : CameraInfo :=
  pinhole_info "camera" 1600 1 (F64.of_Z 400) (F64.of_Z 400)
               (F64.div (F64.of_Z 1599) (F64.of_Z 2)) dzero.

(** One float pixel holding the largest finite float, seen by a 640x480
    camera ([fx = fy = 525], [cx = 319.5], [cy = 239.5]). *)
Definition FLT_MAX_bits : Z := 0x7F7FFFFF.
Definition depth_max : Image := packed_image "camera" TYPE_32FC1 1 1 4 [FLT_MAX_bits].
Definition label_max : Image := packed_image "camera" TYPE_32SC1 1 1 4 [7].
Definition info_max : CameraInfo :=
  pinhole_info "camera" 1 1 (F64.of_Z 525) (F64.of_Z 525)
               (F64.div (F64.of_Z 639) (F64.of_Z 2)) (F64.div (F64.of_Z 479) (F64.of_Z 2)).

(** An 8-bit label image next to the depth image of scenario A. *)
Definition label8 : Image := packed_image "camera" TYPE_8UC1 4 3 1 (repeat 7 12).

(* ================================================================== *)
(** * Vocabulary of the properties *)
(* ================================================================== *)

(** [x] is within tolerance [tol] of the exact number [r]: it is a finite
    float, and its distance to [r] is at most [tol], absolutely or
    relative to [r]. *)
Definition within_tolerance (tol : Q) (x : float) (r : Q) : Prop :=
  exists q, SF2Q x = Some q /\
            (Qabs (q - r) <= tol \/ Qabs (q - r) <= tol * Qabs r)%Q.

(** Absolute tolerance only. *)
Definition within_absolute (tol : Q) (x : float) (r : Q) : Prop :=
  exists q, SF2Q x = Some q /\ (Qabs (q - r) <= tol)%Q.

(** The pinhole projection of the specification in exact arithmetic:
    [(i - c) * z / f] for pixel coordinate [i], principal point [c],
    depth [z] and focal length [f]. *)
Definition projected (i : Z) (c : double) (z : float) (f : double) : option Q :=
  match SF2Q c, SF2Q z, SF2Q f with
  | Some qc, Some qz, Some qf => Some ((inject_Z i - qc) * qz / qf)%Q
  | _, _, _ => None
  end.

Definition all_nan (p : PointXYZL) : bool :=
  SFis_nan (pt_x p) && SFis_nan (pt_y p) && SFis_nan (pt_z p).

Definition all_finite (p : PointXYZL) : bool :=
  SFis_finite (pt_x p) && SFis_finite (pt_y p) && SFis_finite (pt_z p).

(** [f] holds on the [n] integers from [z] on. *)
Fixpoint all_from (n : nat) (z : Z) (f : Z -> bool) : bool :=
  match n with
  | O => true
  | S k => f z && all_from k (z + 1) f
  end.

(** A finite, nonzero intrinsic parameter. *)
Definition finite_nonzero (d : double) : bool :=
  SFis_finite d && negb (SFis_zero d).

(* ================================================================== *)
(** * [PointCloudXyzlNodelet::onInit] and [PointCloudXyzlNodelet::connectCb] *)
(* ================================================================== *)

(** The parameters of the private node handle. [param(name, var, default)]
    yields the stored value, or the default when the name is not set. *)
Record Params := {
  int_params : string -> option Z;
  string_params : string -> option string
}.

Definition param_int (private_nh : Params) (name : string) (default : Z) : Z :=
  match int_params private_nh name with
  | Some v => v
  | None => default
  end.

Definition param_string (private_nh : Params) (name : string) (default : string) : string :=
  match string_params private_nh name with
  | Some v => v
  | None => default
  end.

(** [image_transport::TransportHints(default_transport, ros_hints,
    parameter_nh, parameter_name)]: the transport is read from the
    parameter when the hints are built. *)
Definition TransportHints (default_transport : string) (parameter_nh : Params)
  (parameter_name : string) : string :=
  param_string parameter_nh parameter_name default_transport.

(** A live [image_transport::SubscriberFilter]: the namespace of its
    [ImageTransport], the base topic, the queue size and the transport. *)
Record ImageSubscription := {
  it_namespace : string;
  it_base_topic : string;
  it_queue_size : Z;
  it_transport : string
}.

(** A live [message_filters::Subscriber], or an advertised publisher: the
    namespace of its node handle, the topic and the queue size. *)
Record TopicHandle := {
  nh_namespace : string;
  nh_topic : string;
  nh_queue_size : Z
}.

(** The members [onInit] and [connectCb] write. [None] is a subscriber
    without a subscription. *)
Record Wiring := {
  sync_queue_size : Z;
  pub_point_cloud_ : option TopicHandle;
  sub_depth_ : option ImageSubscription;
  sub_label_ : option ImageSubscription;
  sub_info_ : option TopicHandle
}.

(** Lines 98-120. [queue_size] is an [int]; the constructor of the
    synchronizer policy takes it as a [uint32_t]. *)
Definition onInit (private_nh : Params) : Wiring :=
  let queue_size := param_int private_nh "queue_size" 5 in
  {| sync_queue_size := to_uint32 queue_size;
     pub_point_cloud_ :=
       Some {| nh_namespace := "depth_registered"; nh_topic := "points"; nh_queue_size := 1 |};
     sub_depth_ := None;
     sub_label_ := None;
     sub_info_ := None |}.

(** Lines 123-147; [num_subscribers] is what
    [pub_point_cloud_.getNumSubscribers()] returns. *)
Definition connectCb (self : Wiring) (num_subscribers : Z) (private_nh : Params) : Wiring :=
  if num_subscribers =? 0 then
    {| sync_queue_size := sync_queue_size self;
       pub_point_cloud_ := pub_point_cloud_ self;
       sub_depth_ := None;
       sub_label_ := None;
       sub_info_ := None |}
  else
    match sub_depth_ self with
    | None =>
        let depth_image_transport_param := "depth_image_transport" in
        let depth_hints := TransportHints "raw" private_nh depth_image_transport_param in
        let hints := TransportHints "raw" private_nh "image_transport" in
        {| sync_queue_size := sync_queue_size self;
           pub_point_cloud_ := pub_point_cloud_ self;
           sub_depth_ :=
             Some {| it_namespace := "depth_registered"; it_base_topic := "image_rect";
                     it_queue_size := 1; it_transport := depth_hints |};
           sub_label_ :=
             Some {| it_namespace := "label"; it_base_topic := "label";
                     it_queue_size := 1; it_transport := hints |};
           sub_info_ :=
             Some {| nh_namespace := "label"; nh_topic := "camera_info";
                     nh_queue_size := 1 |} |}
    | Some _ => self
    end.

(** A connection event: the subscriber count the callback finds and the
    parameters at that moment. *)
Definition ConnectEvent : Type := (Z * Params)%type.

(** [connectCb] over a sequence of connection events. *)
Definition connect_all (self : Wiring) (events : list ConnectEvent) : Wiring :=
  fold_left (fun s e => connectCb s (fst e) (snd e)) events self.

Definition is_some {A : Type} (o : option A) : bool :=
  match o with Some _ => true | None => false end.

(** The three input subscriptions are all live, or none is. *)
Definition all_or_none (w : Wiring) : Prop :=
  is_some (sub_label_ w) = is_some (sub_depth_ w) /\
  is_some (sub_info_ w) = is_some (sub_depth_ w).

(** A triple whose depth and label frame ids differ. *)
Definition frames_differ (t : Image * Image * CameraInfo) : bool :=
  let '(d, l, _) := t in
  negb (String.eqb (frame_id (header d)) (frame_id (header l))).

(** Inputs of the further properties: no parameter set; the depth
    transport parameter set; a depth and a label image without pixels; a
    label image like scenario A's in another frame. *)
Definition params_default : Params :=
  {| int_params := fun _ => None; string_params := fun _ => None |}.

Definition params_compressed : Params :=
  {| int_params := fun _ => None;
     string_params := fun name =>
       if String.eqb name "depth_image_transport" then Some "compressedDepth" else None |}.

Definition depth_6x9 : Image := packed_image "camera" TYPE_16UC1 6 9 2 (repeat 1000 54).
Definition label_10x15 : Image := packed_image "camera" TYPE_32SC1 10 15 4 (repeat 7 150).

Definition depth_empty : Image := packed_image "camera" TYPE_16UC1 0 0 2 [].
Definition label_empty : Image := packed_image "camera" TYPE_32SC1 0 0 4 [].
Definition label_foreign : Image := packed_image "other" TYPE_32SC1 4 3 4 (repeat 7 12).

(* ================================================================== *)
(** * Integers and iterator writes *)
(* ================================================================== *)

Unset Implicit Arguments.

Lemma to_int_small (z : Z) : 0 <= z < 2 ^ 31 -> to_int z = z.
Proof.
  intros Hz. unfold to_int.
  rewrite Z.mod_small by lia. lia.
Qed.

Lemma to_uint32_bits (z i : Z) :
  0 <= i < 32 -> Z.testbit (to_uint32 z) i = Z.testbit z i.
Proof.
  intros Hi. unfold to_uint32.
  apply Z.mod_pow2_bits_low. lia.
Qed.

Lemma write_length {A : Type} (i : nat) (a : A) (l : list A) :
  List.length (write i a l) = List.length l.
Proof.
  revert i. induction l as [|h t IH]; intros [|j]; simpl; auto.
Qed.

Lemma write_same {A : Type} (i : nat) (a : A) (l : list A) :
  (i < List.length l)%nat -> nth_error (write i a l) i = Some a.
Proof.
  revert i. induction l as [|h t IH]; intros [|j] Hi; simpl in *; try lia; auto.
  apply IH. lia.
Qed.

Lemma write_other {A : Type} (i j : nat) (a : A) (l : list A) :
  i <> j -> nth_error (write i a l) j = nth_error l j.
Proof.
  revert i j. induction l as [|h t IH]; intros [|i] [|j] Hij; simpl;
    solve [ reflexivity | congruence | apply IH; congruence ].
Qed.

(* ================================================================== *)
(** * The loops of [convert] *)
(* ================================================================== *)

Section ConvertLoops.

Context {libs : VisionLibs}.
Context {T T2 : Type}.
Context {PT : PixelType T} {DT : DepthType T} {traits : DepthTraits T}.
Context {PT2 : PixelType T2} {LT : LabelType T2}.

Variables center_x center_y constant_x constant_y : float.
Variables depth_data label_data : list Byte.byte.

(** The inner loop writes [n] consecutive points and touches no other. *)
Lemma convert_row_spec (depth_row label_row v : Z) (n : nat) :
  forall (u : Z) (it : nat) (pts : list PointXYZL),
    (it + n <= List.length pts)%nat ->
    let r := convert_row center_x center_y constant_x constant_y
               depth_data label_data depth_row label_row v n u it pts in
    fst r = (it + n)%nat /\
    List.length (snd r) = List.length pts /\
    (forall k, (k < n)%nat ->
       nth_error (snd r) (it + k) =
       Some (pixel_at (T := T) (T2 := T2) center_x center_y constant_x constant_y
                  depth_data label_data depth_row label_row v (u + Z.of_nat k))) /\
    (forall j, (j < it)%nat -> nth_error (snd r) j = nth_error pts j).
Proof.
  induction n as [|n IH]; intros u it pts Hlen; simpl.
  - repeat split; auto; intros; lia.
  - specialize (IH (u + 1) (S it)
                   (write it (pixel_at (T := T) (T2 := T2) center_x center_y constant_x constant_y
                  depth_data label_data depth_row label_row v u) pts)).
    rewrite write_length in IH. specialize (IH ltac:(lia)).
    unfold pixel_at in IH at 1.
    destruct IH as (Hfst & Hlen' & Hnew & Hold).
    repeat split.
    + rewrite Hfst. lia.
    + exact Hlen'.
    + intros [|k] Hk.
      * rewrite Nat.add_0_r, Z.add_0_r.
        rewrite Hold by lia. apply write_same. lia.
      * replace (it + S k)%nat with (S it + k)%nat by lia.
        rewrite Hnew by lia. f_equal. f_equal. lia.
    + intros j Hj. rewrite Hold by lia. apply write_other. lia.
Qed.

(** The outer loop writes [n] rows of [w] points each, row after row. *)
Lemma convert_rows_spec (row_step label_row_step : Z) (w n : nat) :
  forall (v depth_row label_row : Z) (it : nat) (pts : list PointXYZL),
    (it + n * w <= List.length pts)%nat ->
    let r := convert_rows center_x center_y constant_x constant_y
               depth_data label_data row_step label_row_step w
               n v depth_row label_row it pts in
    List.length (snd r) = List.length pts /\
    (forall i k, (i < n)%nat -> (k < w)%nat ->
       nth_error (snd r) (it + i * w + k) =
       Some (pixel_at (T := T) (T2 := T2) center_x center_y constant_x constant_y
                  depth_data label_data (depth_row + Z.of_nat i * row_step)
                      (label_row + Z.of_nat i * label_row_step)
                      (v + Z.of_nat i) (Z.of_nat k))) /\
    (forall j, (j < it)%nat -> nth_error (snd r) j = nth_error pts j).
Proof.
  induction n as [|n IH]; intros v depth_row label_row it pts Hlen; simpl.
  - repeat split; auto; intros; lia.
  - assert (Hroom : (it + w <= List.length pts /\ it + w + n * w <= List.length pts)%nat)
      by (simpl in Hlen; lia).
    destruct Hroom as [Hroom1 Hroom2].
    pose proof (convert_row_spec depth_row label_row v w 0 it pts Hroom1) as Hrow.
    simpl in Hrow.
    destruct (convert_row center_x center_y constant_x constant_y
                depth_data label_data depth_row label_row v w 0 it pts)
      as [it' pts'] eqn:Erow.
    simpl in Hrow. destruct Hrow as (Hit & Hlen' & Hnew & Hold). subst it'.
    specialize (IH (v + 1) (depth_row + row_step) (label_row + label_row_step)
                   (it + w)%nat pts').
    rewrite Hlen' in IH. specialize (IH Hroom2).
    destruct IH as (Hlen'' & Hnew' & Hold').
    repeat split.
    + exact Hlen''.
    + intros [|i] k Hi Hk.
      * simpl. rewrite Nat.add_0_r.
        rewrite Hold' by lia. rewrite Hnew by lia.
        f_equal. f_equal; lia.
      * replace (it + S i * w + k)%nat with (it + w + i * w + k)%nat by lia.
        rewrite Hnew' by lia. rewrite Nat2Z.inj_succ.
        f_equal. f_equal; lia.
    + intros j Hj. rewrite Hold' by lia. apply Hold. exact Hj.
Qed.

End ConvertLoops.

(* ================================================================== *)
(** * [convert], pixel by pixel *)
(* ================================================================== *)

Lemma new_cloud_unfold (depth_msg : Image) :
  new_cloud depth_msg =
  {| pc_header := header depth_msg;
     pc_height := height depth_msg;
     pc_width := width depth_msg;
     fields := xyzl_fields;
     pc_is_bigendian := false;
     pc_point_step := 16;
     pc_row_step := to_uint32 (width depth_msg * 16);
     points := repeat zero_point (Z.to_nat (height depth_msg * width depth_msg));
     is_dense := false |}.
Proof. reflexivity. Qed.

Section ConvertPixels.

Context {libs : VisionLibs}.
Context {T T2 : Type}.
Context {PT : PixelType T} {DT : DepthType T} {traits : DepthTraits T}.
Context {PT2 : PixelType T2} {LT : LabelType T2}.

Lemma convert_keeps_layout (model : PinholeCameraModel)
  (depth_msg label_msg : Image) (cloud_msg : PointCloud2) :
  let c := convert (T := T) (T2 := T2) model depth_msg label_msg cloud_msg in
  pc_header c = pc_header cloud_msg /\
  pc_height c = pc_height cloud_msg /\
  pc_width c = pc_width cloud_msg /\
  fields c = fields cloud_msg /\
  is_dense c = is_dense cloud_msg.
Proof.
  unfold convert.
  destruct (convert_rows _ _ _ _ _ _ _ _ _ _ _ _ _ _ _) as [it pts].
  simpl. repeat split.
Qed.

(** After [convert] on the fresh cloud of a depth image, the point at
    position [v * width + u] is the one computed for pixel [(v, u)], and
    the cloud has exactly [height * width] points. *)
Lemma convert_fills (model : PinholeCameraModel) (depth_msg label_msg : Image) :
  well_sized depth_msg ->
  let c := convert (T := T) (T2 := T2) model depth_msg label_msg (new_cloud depth_msg) in
  List.length (points c) = Z.to_nat (height depth_msg * width depth_msg) /\
  forall v u, 0 <= v < height depth_msg -> 0 <= u < width depth_msg ->
    nth_error (points c) (Z.to_nat (v * width depth_msg + u)) =
    Some (point_of model depth_msg label_msg v u).
Proof.
  intros [Hw Hh]. unfold convert. rewrite new_cloud_unfold. simpl.
  rewrite (to_int_small _ Hw), (to_int_small _ Hh).
  set (pts0 := repeat zero_point (Z.to_nat (height depth_msg * width depth_msg))).
  assert (Hlen0 : List.length pts0 = (Z.to_nat (height depth_msg) * Z.to_nat (width depth_msg))%nat).
  { unfold pts0. rewrite repeat_length. rewrite Z2Nat.inj_mul by lia. reflexivity. }
  pose proof (convert_rows_spec
                (T := T) (T2 := T2)
                (F64.to_float (cx model)) (F64.to_float (cy model))
                (F64.to_float (F64.div (F64.of_float (toMeters T_one)) (fx model)))
                (F64.to_float (F64.div (F64.of_float (toMeters T_one)) (fy model)))
                (data depth_msg) (data label_msg)
                (to_int (step depth_msg / sizeof (T := T)))
                (to_int (step label_msg / sizeof (T := T2)))
                (Z.to_nat (width depth_msg)) (Z.to_nat (height depth_msg))
                0 0 0 O pts0 ltac:(lia)) as Hspec.
  simpl in Hspec.
  destruct (convert_rows _ _ _ _ _ _ _ _ _ _ _ _ _ _ _) as [it pts].
  simpl in *. destruct Hspec as (Hlen & Hnew & _).
  split.
  - rewrite Hlen, Hlen0. rewrite Z2Nat.inj_mul by lia. reflexivity.
  - intros v u Hv Hu.
    replace (Z.to_nat (v * width depth_msg + u))
      with (Z.to_nat v * Z.to_nat (width depth_msg) + Z.to_nat u)%nat.
    2:{ rewrite Z2Nat.inj_add, Z2Nat.inj_mul by nia. reflexivity. }
    rewrite Hnew by lia.
    unfold point_of, pixel_at, depth_at, label_at, center_x_of, center_y_of,
      constant_x_of, constant_y_of.
    rewrite !Z2Nat.id by lia. reflexivity.
Qed.

(** Conversely, every point of the cloud is the point of some pixel. *)
Lemma convert_points_written (model : PinholeCameraModel) (depth_msg label_msg : Image) :
  well_sized depth_msg ->
  let c := convert (T := T) (T2 := T2) model depth_msg label_msg (new_cloud depth_msg) in
  forall i p, nth_error (points c) i = Some p ->
    exists v u, 0 <= v < height depth_msg /\ 0 <= u < width depth_msg /\
                i = Z.to_nat (v * width depth_msg + u) /\
                p = point_of model depth_msg label_msg v u.
Proof.
  intros Hsz c i p Hp.
  destruct (convert_fills model depth_msg label_msg Hsz) as [Hlen Hat].
  fold c in Hlen, Hat.
  assert (Hi : (i < List.length (points c))%nat)
    by (apply nth_error_Some; congruence).
  rewrite Hlen in Hi. destruct Hsz as [Hw Hh].
  assert (Hwpos : 0 < width depth_msg) by nia.
  exists (Z.of_nat i / width depth_msg), (Z.of_nat i mod width depth_msg).
  assert (Hv : 0 <= Z.of_nat i / width depth_msg < height depth_msg).
  { split.
    - apply Z.div_pos; lia.
    - apply Z.div_lt_upper_bound; lia. }
  pose proof (Z.mod_pos_bound (Z.of_nat i) (width depth_msg) Hwpos) as Hu.
  assert (Hidx : Z.of_nat i / width depth_msg * width depth_msg
                 + Z.of_nat i mod width depth_msg = Z.of_nat i).
  { pose proof (Z.div_mod (Z.of_nat i) (width depth_msg) ltac:(lia)). lia. }
  split; [exact Hv | split; [exact Hu | split]].
  - rewrite Hidx. rewrite Nat2Z.id. reflexivity.
  - specialize (Hat _ _ Hv Hu). rewrite Hidx, Nat2Z.id in Hat. congruence.
Qed.

End ConvertPixels.

(* ================================================================== *)
(** * Valid and invalid pixels *)
(* ================================================================== *)

Section PixelPolicy.

Context {libs : VisionLibs}.
Context {T T2 : Type}.
Context {PT : PixelType T} {DT : DepthType T} {traits : DepthTraits T}.
Context {PT2 : PixelType T2} {LT : LabelType T2}.

Lemma convert_point_valid (c_x c_y k_x k_y : float) (v u : Z) (depth : T) (label : T2) :
  valid depth = true -> is_negative label = false ->
  convert_point c_x c_y k_x k_y v u depth label =
  {| pt_x := F32.mul (F32.mul (F32.sub (F32.of_Z u) c_x) (as_float depth)) k_x;
     pt_y := F32.mul (F32.mul (F32.sub (F32.of_Z v) c_y) (as_float depth)) k_y;
     pt_z := toMeters depth;
     pt_label := as_uint32 label |}.
Proof.
  intros Hd Hl. unfold convert_point. rewrite Hd, Hl. reflexivity.
Qed.

Lemma convert_point_invalid (c_x c_y k_x k_y : float) (v u : Z) (depth : T) (label : T2) :
  valid depth = false \/ is_negative label = true ->
  convert_point c_x c_y k_x k_y v u depth label =
  {| pt_x := F32.quiet_NaN; pt_y := F32.quiet_NaN; pt_z := F32.quiet_NaN;
     pt_label := as_uint32 label |}.
Proof.
  intros [Hd | Hl]; unfold convert_point.
  - rewrite Hd. reflexivity.
  - rewrite Hl, orb_true_r. reflexivity.
Qed.

(** C1 (as the code has it). For every pixel of a well-sized depth image
    whose depth sample is valid and whose label is not negative, the point
    of the cloud has [z = toMeters(depth)] exactly, and [x] and [y] are
    the float products [((u - center_x) * depth) * constant_x] and
    [((v - center_y) * depth) * constant_y], where [center_x], [center_y]
    are the principal point narrowed to float and [constant_x],
    [constant_y] are [toMeters(1) / fx] and [toMeters(1) / fy], divided in
    double and narrowed to float. *)
Theorem valid_pixel_projection (model : PinholeCameraModel)
  (depth_msg label_msg : Image) (v u : Z) :
  well_sized depth_msg ->
  0 <= v < height depth_msg -> 0 <= u < width depth_msg ->
  valid (depth_at (T := T) depth_msg v u) = true ->
  is_negative (label_at (T2 := T2) label_msg v u) = false ->
  exists p,
    nth_error (points (convert (T := T) (T2 := T2) model depth_msg label_msg
                               (new_cloud depth_msg)))
              (Z.to_nat (v * width depth_msg + u)) = Some p /\
    pt_z p = toMeters (depth_at (T := T) depth_msg v u) /\
    pt_x p = F32.mul (F32.mul (F32.sub (F32.of_Z u) (F64.to_float (cx model)))
                              (as_float (depth_at (T := T) depth_msg v u)))
                     (F64.to_float (F64.div (F64.of_float (toMeters (T_one (T := T))))
                                            (fx model))) /\
    pt_y p = F32.mul (F32.mul (F32.sub (F32.of_Z v) (F64.to_float (cy model)))
                              (as_float (depth_at (T := T) depth_msg v u)))
                     (F64.to_float (F64.div (F64.of_float (toMeters (T_one (T := T))))
                                            (fy model))).
Proof.
  intros Hsz Hv Hu Hvalid Hlabel.
  destruct (convert_fills (T := T) (T2 := T2) model depth_msg label_msg Hsz) as [_ Hat].
  exists (point_of (T := T) (T2 := T2) model depth_msg label_msg v u).
  split.
  - apply Hat; assumption.
  - unfold point_of. rewrite (convert_point_valid _ _ _ _ _ _ _ _ Hvalid Hlabel).
    simpl. repeat split.
Qed.

(** C2. For every pixel of a well-sized depth image whose depth sample is
    invalid or whose label is negative, the point of the cloud has
    [x], [y] and [z] all NaN, and its label field holds the label sample
    converted to [uint32_t]: the low 32 bits of the sample, bit for bit,
    whatever its sign. *)
Theorem invalid_pixel_nan_label_kept (model : PinholeCameraModel)
  (depth_msg label_msg : Image) (v u : Z) :
  well_sized depth_msg ->
  0 <= v < height depth_msg -> 0 <= u < width depth_msg ->
  valid (depth_at (T := T) depth_msg v u) = false \/
  is_negative (label_at (T2 := T2) label_msg v u) = true ->
  exists p,
    nth_error (points (convert (T := T) (T2 := T2) model depth_msg label_msg
                               (new_cloud depth_msg)))
              (Z.to_nat (v * width depth_msg + u)) = Some p /\
    pt_x p = S754_nan /\ pt_y p = S754_nan /\ pt_z p = S754_nan /\
    pt_label p = to_uint32 (label_value (label_at (T2 := T2) label_msg v u)) /\
    forall i, 0 <= i < 32 ->
      Z.testbit (pt_label p) i =
      Z.testbit (label_value (label_at (T2 := T2) label_msg v u)) i.
Proof.
  intros Hsz Hv Hu Hbad.
  destruct (convert_fills (T := T) (T2 := T2) model depth_msg label_msg Hsz) as [_ Hat].
  exists (point_of (T := T) (T2 := T2) model depth_msg label_msg v u).
  split.
  - apply Hat; assumption.
  - unfold point_of. rewrite (convert_point_invalid _ _ _ _ _ _ _ _ Hbad).
    simpl. repeat split.
    intros i Hi. apply to_uint32_bits. exact Hi.
Qed.

(** C8 (as the code has it). Every point of the cloud is the point of one
    pixel and carries that pixel's label; its [x], [y], [z] are all three
    NaN when the pixel is invalid, and otherwise [z] is [toMeters(depth)],
    finite for a trait that maps the valid samples of the image to finite
    depths, while [x] and [y] are the two float products of the
    projection. *)
Theorem every_point_nan_or_finite_depth (model : PinholeCameraModel)
  (depth_msg label_msg : Image) :
  well_sized depth_msg ->
  (forall v u, valid (depth_at (T := T) depth_msg v u) = true ->
               SFis_finite (toMeters (depth_at (T := T) depth_msg v u)) = true) ->
  let c := convert (T := T) (T2 := T2) model depth_msg label_msg (new_cloud depth_msg) in
  List.length (points c) = Z.to_nat (height depth_msg * width depth_msg) /\
  forall i p, nth_error (points c) i = Some p ->
    exists v u,
      0 <= v < height depth_msg /\ 0 <= u < width depth_msg /\
      i = Z.to_nat (v * width depth_msg + u) /\
      pt_label p = as_uint32 (label_at (T2 := T2) label_msg v u) /\
      (all_nan p = true \/
       (SFis_finite (pt_z p) = true /\
        valid (depth_at (T := T) depth_msg v u) = true /\
        is_negative (label_at (T2 := T2) label_msg v u) = false /\
        pt_x p = F32.mul (F32.mul (F32.sub (F32.of_Z u) (center_x_of model))
                                  (as_float (depth_at (T := T) depth_msg v u)))
                         (constant_x_of (T := T) model) /\
        pt_y p = F32.mul (F32.mul (F32.sub (F32.of_Z v) (center_y_of model))
                                  (as_float (depth_at (T := T) depth_msg v u)))
                         (constant_y_of (T := T) model))).
Proof.
  intros Hsz Hfin c. split.
  - apply (convert_fills (T := T) (T2 := T2) model depth_msg label_msg Hsz).
  - intros i p Hp.
    destruct (convert_points_written (T := T) (T2 := T2) model depth_msg label_msg Hsz i p Hp)
      as (v & u & Hv & Hu & Hi & Hpt).
    exists v, u. repeat (split; [assumption|]).
    subst p. unfold point_of.
    destruct (valid (depth_at (T := T) depth_msg v u)) eqn:Hvalid.
    + destruct (is_negative (label_at (T2 := T2) label_msg v u)) eqn:Hneg.
      * rewrite convert_point_invalid by (right; exact Hneg).
        split; [reflexivity | left; reflexivity].
      * rewrite (convert_point_valid _ _ _ _ _ _ _ _ Hvalid Hneg). simpl.
        split; [reflexivity | right].
        repeat split. apply Hfin. exact Hvalid.
    + rewrite convert_point_invalid by (left; exact Hvalid).
      split; [reflexivity | left; reflexivity].
Qed.

End PixelPolicy.

(* ================================================================== *)
(** * The callback, stage by stage *)
(* ================================================================== *)

Lemma needs_conversion_always (e : string) : needs_conversion e = true.
Proof.
  unfold needs_conversion.
  destruct (String.eqb e TYPE_32SC1) eqn:E32; simpl; [|reflexivity].
  apply String.eqb_eq in E32. subst e. reflexivity.
Qed.

Lemma select_convert_some (de le : string) :
  select_convert de le <> None <->
  supported_depth de /\ (le = TYPE_32SC1 \/ le = MONO8).
Proof.
  unfold select_convert, supported_depth.
  destruct (String.eqb de TYPE_16UC1) eqn:D16;
    destruct (String.eqb de TYPE_32FC1) eqn:D32;
    destruct (String.eqb le TYPE_32SC1) eqn:L32;
    destruct (String.eqb le MONO8) eqn:L8; simpl;
    rewrite ?String.eqb_eq, ?String.eqb_neq in *;
    (split; [intros H; try (exfalso; apply H; reflexivity); try (split; auto)
            | intros [[Hd | Hd] [Hl | Hl]]; try congruence]).
Qed.

Section Stages.

Context {libs : VisionLibs}.
Context {traits_uint16 : DepthTraits uint16_t} {traits_float : DepthTraits float}.

Lemma normalize_unfold (label_msg : Image) :
  normalize label_msg =
  (cv <- try_ (toCvCopy label_msg TYPE_32SC1) UnsupportedLabelEncoding ;;
   inr (toImageMsg cv)).
Proof.
  unfold normalize. rewrite needs_conversion_always. reflexivity.
Qed.

Lemma normalize_encoding {contract : VisionLibsSpec libs} (label_msg out : Image) :
  normalize label_msg = inr out -> encoding out = TYPE_32SC1.
Proof.
  rewrite normalize_unfold.
  destruct (toCvCopy label_msg TYPE_32SC1) as [cv|] eqn:Ecopy; simpl; [|discriminate].
  intros Hout. inversion Hout; subst out.
  rewrite toImageMsg_encoding.
  eapply toCvCopy_encoding; [|exact Ecopy]. discriminate.
Qed.

(** The outcome of the callback through its stages. *)
Lemma imageCb_outcome (self : Nodelet) (depth_msg label_msg_in : Image) (info_msg : CameraInfo) :
  snd (imageCb self depth_msg label_msg_in info_msg) =
  match (label_msg <- prepared_label self depth_msg label_msg_in info_msg ;;
         dispatch (working_model self depth_msg label_msg_in info_msg)
                  depth_msg label_msg (new_cloud depth_msg)) with
  | inr cloud_msg => Published cloud_msg
  | inl e => NotPublished e
  end.
Proof.
  unfold imageCb, prepared_label, working_model.
  destruct (negb (String.eqb _ _)); [reflexivity|].
  destruct (reconcile _ depth_msg label_msg_in info_msg) as [model2 reconciled].
  simpl. destruct reconciled as [e | label_msg]; simpl; [reflexivity|].
  destruct (normalize label_msg); reflexivity.
Qed.

Lemma dispatch_layout (model : PinholeCameraModel)
  (depth_msg label_msg : Image) (cloud_msg c : PointCloud2) :
  dispatch model depth_msg label_msg cloud_msg = inr c ->
  pc_header c = pc_header cloud_msg /\
  pc_height c = pc_height cloud_msg /\
  pc_width c = pc_width cloud_msg /\
  fields c = fields cloud_msg /\
  is_dense c = is_dense cloud_msg.
Proof.
  unfold dispatch.
  destruct (select_convert _ _) as [[| | |]|]; intros H; inversion H;
    apply convert_keeps_layout.
Qed.

Lemma dispatch_publishes (model : PinholeCameraModel)
  (depth_msg label_msg : Image) (cloud_msg : PointCloud2) :
  (exists c, dispatch model depth_msg label_msg cloud_msg = inr c) <->
  select_convert (encoding depth_msg) (encoding label_msg) <> None.
Proof.
  unfold dispatch.
  destruct (select_convert _ _) as [[| | |]|]; split;
    try (intros _; eexists; reflexivity);
    try (intros _; discriminate);
    try (intros [c Hc]; discriminate);
    try (intros H; exfalso; apply H; reflexivity).
Qed.

Lemma reconcile_label_any_model (m1 m2 : PinholeCameraModel)
  (depth_msg label_msg_in : Image) (info_msg : CameraInfo) :
  snd (reconcile m1 depth_msg label_msg_in info_msg) =
  snd (reconcile m2 depth_msg label_msg_in info_msg).
Proof.
  unfold reconcile. destruct (_ || _); reflexivity.
Qed.

End Stages.

(* ================================================================== *)
(** * The plain libraries meet the contract *)
(* ================================================================== *)

Lemma plain_contract : VisionLibsSpec Plain.plain_libs.
Proof.
  constructor.
  - intros m1 m2 info. repeat split.
  - intros src dst cv Hdst. simpl. unfold Plain.plain_toCvCopy.
    destruct (Plain.matFromImage src) as [m|]; [|discriminate].
    destruct (String.eqb dst (encoding src)).
    + intros H. inversion H. reflexivity.
    + destruct (String.eqb dst TYPE_32SC1 && (Plain.elem_size m =? 1)); [|discriminate].
      intros H. inversion H. reflexivity.
  - intros cv. reflexivity.
  - intros cv. split; reflexivity.
  - intros src w h f_x f_y interp dst _ _. simpl. unfold Plain.plain_resize.
    destruct interp; try discriminate.
    destruct ((0 <? w) && (0 <? h) && (0 <? Plain.rows src) && (0 <? Plain.cols src)) eqn:Hc;
      [|discriminate].
    intros H. inversion H. simpl. split; [reflexivity|].
    unfold Plain.rows. simpl. rewrite length_map, length_seq.
    apply andb_prop in Hc. destruct Hc as [Hc _].
    apply andb_prop in Hc. destruct Hc as [Hc _].
    apply andb_prop in Hc. destruct Hc as [_ Hh].
    apply Z.ltb_lt in Hh. lia.
Qed.

(* ================================================================== *)
(** * Numbers of the reconciler *)
(* ================================================================== *)

Lemma nth_error_scale_at (i : nat) (ratio : float) (a : list double) (j : nat) :
  nth_error (scale_at i ratio a) j =
  if Nat.eqb j i then option_map (scale_entry ratio) (nth_error a j) else nth_error a j.
Proof.
  revert i j. induction a as [|d t IH]; intros [|i] [|j]; simpl; try reflexivity.
  - destruct (Nat.eqb j i); reflexivity.
  - apply IH.
Qed.

(** The conversion of a non-negative float to [int] is the floor of its
    value. *)
Lemma to_int_floor (f : float) (q : Q) :
  SF2Q f = Some q -> (0 <= q)%Q -> Qfloor q < 2 ^ 31 -> F32.to_int f = Qfloor q.
Proof.
  destruct f as [s | s | | s m e]; unfold F32.to_int; cbn [SF2Q]; try discriminate.
  - intros H _ _. inversion H. reflexivity.
  - intros H Hpos Hlt. injection H as Hq.
    destruct s.
    + exfalso. subst q.
      destruct e as [|p|p]; unfold Qle in Hpos; cbn [Qnum Qden] in Hpos.
      * rewrite Z.pow_0_r in Hpos. lia.
      * pose proof (Z.pow_pos_nonneg 2 (Z.pos p) ltac:(lia) ltac:(lia)). nia.
      * lia.
    + assert (Hval : (match e with
                      | Z.neg p => Z.shiftr (Z.pos m) (Z.pos p)
                      | _ => Z.pos m * 2 ^ e
                      end) = Qfloor q).
      { subst q. destruct e as [|p|p]; simpl Qfloor.
        - rewrite Z.div_1_r. reflexivity.
        - rewrite Z.div_1_r. reflexivity.
        - rewrite Z.shiftr_div_pow2 by lia. rewrite Pos2Z.inj_pow. reflexivity. }
      rewrite Hval.
      assert (Hge : 0 <= Qfloor q).
      { change 0 with (Qfloor 0). apply Qfloor_resp_le. exact Hpos. }
      unfold INT_MIN.
      destruct (Z.leb_spec (- 2 ^ 31) (Qfloor q)); [|lia].
      destruct (Z.ltb_spec (Qfloor q) (2 ^ 31)); [|lia].
      reflexivity.
Qed.

(* ================================================================== *)
(** * Properties of the callback *)
(* ================================================================== *)

Section Callback.

Context {libs : VisionLibs}.
Context {traits_uint16 : DepthTraits uint16_t} {traits_float : DepthTraits float}.

(** C3. Whenever the callback publishes a cloud, its width and height are
    those of the depth image, its fields are [x], [y], [z] as 32-bit
    floats and [label] as an unsigned 32-bit integer, [is_dense] is false,
    and its header (time stamp and frame id) is the header of the depth
    image. *)
Theorem published_cloud_layout (self : Nodelet)
  (depth_msg label_msg_in : Image) (info_msg : CameraInfo) (c : PointCloud2) :
  snd (imageCb self depth_msg label_msg_in info_msg) = Published c ->
  pc_width c = width depth_msg /\
  pc_height c = height depth_msg /\
  fields c = xyzl_fields /\
  is_dense c = false /\
  pc_header c = header depth_msg.
Proof.
  rewrite imageCb_outcome.
  destruct (prepared_label self depth_msg label_msg_in info_msg) as [e | label_msg];
    simpl; [discriminate|].
  destruct (dispatch _ depth_msg label_msg (new_cloud depth_msg)) as [e | c'] eqn:Ed;
    [discriminate|].
  intros H. inversion H; subst c'.
  apply dispatch_layout in Ed. rewrite new_cloud_unfold in Ed. simpl in Ed.
  destruct Ed as (Hh & Hht & Hw & Hf & Hd). auto.
Qed.

(** C6. When the depth and label images have the same width and height,
    the reconciler returns the label image it was given and leaves the
    camera model as it was derived from the unmodified camera info. *)
Theorem equal_sizes_pass_through (self : Nodelet)
  (depth_msg label_msg_in : Image) (info_msg : CameraInfo) :
  width depth_msg = width label_msg_in ->
  height depth_msg = height label_msg_in ->
  reconcile (fromCameraInfo (model_ self) info_msg) depth_msg label_msg_in info_msg =
    (fromCameraInfo (model_ self) info_msg, inr label_msg_in) /\
  working_model self depth_msg label_msg_in info_msg = fromCameraInfo (model_ self) info_msg.
Proof.
  intros Hw Hh. unfold working_model, reconcile.
  rewrite Hw, Hh, !Z.eqb_refl. simpl. split; reflexivity.
Qed.

(** C9. The test of line 207 holds for every encoding, so every label
    image that reaches it goes through [toCvCopy] to 32SC1; the label
    image handed to the dispatch is therefore always 32SC1, and neither
    8-bit instantiation of [convert] is ever selected. *)
Theorem label_always_converted {contract : VisionLibsSpec libs} (self : Nodelet)
  (depth_msg label_msg_in : Image) (info_msg : CameraInfo) :
  (forall e, needs_conversion e = true) /\
  (forall label_msg,
     normalize label_msg =
     (cv <- try_ (toCvCopy label_msg TYPE_32SC1) UnsupportedLabelEncoding ;;
      inr (toImageMsg cv))) /\
  (forall label_msg,
     prepared_label self depth_msg label_msg_in info_msg = inr label_msg ->
     encoding label_msg = TYPE_32SC1 /\
     select_convert (encoding depth_msg) (encoding label_msg) <> Some convert_uint16_uint8 /\
     select_convert (encoding depth_msg) (encoding label_msg) <> Some convert_float_uint8).
Proof.
  split; [exact needs_conversion_always|].
  split; [exact normalize_unfold|].
  intros label_msg Hprep.
  assert (Henc : encoding label_msg = TYPE_32SC1).
  { unfold prepared_label in Hprep.
    destruct (negb (String.eqb _ _)); [discriminate|].
    destruct (snd (reconcile _ depth_msg label_msg_in info_msg)) as [e | l]; [discriminate|].
    simpl in Hprep. apply normalize_encoding in Hprep. exact Hprep. }
  split; [exact Henc|].
  rewrite Henc. unfold select_convert.
  destruct (String.eqb (encoding depth_msg) TYPE_16UC1);
    destruct (String.eqb (encoding depth_msg) TYPE_32FC1); simpl;
    split; discriminate.
Qed.

(** C4 (what the code does instead). A label image that is already 8UC1
    is not passed through: the normalizer either drops the frame or hands
    on a different image, converted to 32SC1. *)
Theorem supported_8UC1_label_is_converted {contract : VisionLibsSpec libs}
  (label_msg : Image) :
  encoding label_msg = TYPE_8UC1 ->
  normalize label_msg <> inr label_msg /\
  (normalize label_msg = inl UnsupportedLabelEncoding \/
   exists out, normalize label_msg = inr out /\ encoding out = TYPE_32SC1).
Proof.
  intros Henc. split.
  - intros Hsame. apply normalize_encoding in Hsame.
    rewrite Henc in Hsame. discriminate.
  - destruct (normalize label_msg) as [e | out] eqn:En.
    + left. rewrite normalize_unfold in En.
      destruct (toCvCopy label_msg TYPE_32SC1); simpl in En; congruence.
    + right. exists out. split; [reflexivity|].
      apply (normalize_encoding label_msg). exact En.
Qed.

(** C7. The callback publishes a cloud exactly when nothing fails: the
    frame ids agree, the reconciler yields a label image, [toCvCopy]
    converts it, and the depth encoding is 16UC1 or 32FC1. On a frame id
    mismatch, on a label that cannot be converted and on any other depth
    encoding nothing is published; and a published cloud is complete, all
    [height * width] points of it written. *)
Theorem publishes_iff_no_error {contract : VisionLibsSpec libs} (self : Nodelet)
  (depth_msg label_msg_in : Image) (info_msg : CameraInfo) :
  let out := snd (imageCb self depth_msg label_msg_in info_msg) in
  let reconciled :=
    snd (reconcile (fromCameraInfo (model_ self) info_msg) depth_msg label_msg_in info_msg) in
  ((exists c, out = Published c) <->
   (frame_id (header depth_msg) = frame_id (header label_msg_in) /\
    (exists label_msg cv, reconciled = inr label_msg /\
                          toCvCopy label_msg TYPE_32SC1 = Some cv) /\
    supported_depth (encoding depth_msg))) /\
  (frame_id (header depth_msg) <> frame_id (header label_msg_in) ->
   out = NotPublished FrameIdMismatch) /\
  (forall label_msg, frame_id (header depth_msg) = frame_id (header label_msg_in) ->
     reconciled = inr label_msg -> toCvCopy label_msg TYPE_32SC1 = None ->
     out = NotPublished UnsupportedLabelEncoding) /\
  (~ supported_depth (encoding depth_msg) -> forall c, out <> Published c) /\
  (forall c, out = Published c -> well_sized depth_msg ->
     List.length (points c) = Z.to_nat (height depth_msg * width depth_msg)).
Proof.
  intros out reconciled.
  assert (Hout : out =
    match (label_msg <- prepared_label self depth_msg label_msg_in info_msg ;;
           dispatch (working_model self depth_msg label_msg_in info_msg)
                    depth_msg label_msg (new_cloud depth_msg)) with
    | inr cloud_msg => Published cloud_msg
    | inl e => NotPublished e
    end) by apply imageCb_outcome.
  assert (Hprep : prepared_label self depth_msg label_msg_in info_msg =
    if negb (String.eqb (frame_id (header depth_msg)) (frame_id (header label_msg_in)))
    then inl FrameIdMismatch
    else (label_msg <- reconciled ;; normalize label_msg)) by reflexivity.
  assert (Hiff : (exists c, out = Published c) <->
   (frame_id (header depth_msg) = frame_id (header label_msg_in) /\
    (exists label_msg cv, reconciled = inr label_msg /\
                          toCvCopy label_msg TYPE_32SC1 = Some cv) /\
    supported_depth (encoding depth_msg))).
  { rewrite Hout, Hprep.
    destruct (String.eqb (frame_id (header depth_msg)) (frame_id (header label_msg_in))) eqn:Ef;
      simpl.
    2:{ apply String.eqb_neq in Ef. split.
        - intros [c Hc]. discriminate.
        - intros [Heq _]. contradiction. }
    apply String.eqb_eq in Ef.
    destruct reconciled as [e | label_msg]; simpl.
    { split.
      - intros [c Hc]. discriminate.
      - intros (_ & (l & cv & Hl & _) & _). discriminate. }
    rewrite normalize_unfold.
    destruct (toCvCopy label_msg TYPE_32SC1) as [cv|] eqn:Ecopy; simpl.
    2:{ split.
        - intros [c Hc]. discriminate.
        - intros (_ & (l & cv & Hl & Hcv) & _). inversion Hl; subst l. congruence. }
    assert (Henc : encoding (toImageMsg cv) = TYPE_32SC1).
    { rewrite toImageMsg_encoding. eapply toCvCopy_encoding; [|exact Ecopy]. discriminate. }
    pose proof (dispatch_publishes (working_model self depth_msg label_msg_in info_msg)
                  depth_msg (toImageMsg cv) (new_cloud depth_msg)) as Hd.
    rewrite select_convert_some, Henc in Hd.
    destruct (dispatch _ depth_msg (toImageMsg cv) (new_cloud depth_msg)) as [e | c] eqn:Ed.
    - split.
      + intros [c Hc]. discriminate.
      + intros (_ & _ & Hsup). destruct Hd as [_ Hd].
        destruct (Hd (conj Hsup (or_introl eq_refl))) as [c Hc]. discriminate.
    - split.
      + intros _. split; [exact Ef|]. split.
        * exists label_msg, cv. split; [reflexivity | exact Ecopy].
        * destruct Hd as [Hd _]. apply Hd. exists c. reflexivity.
      + intros _. exists c. reflexivity. }
  split; [exact Hiff|].
  split.
  { intros Hneq. rewrite Hout, Hprep.
    apply String.eqb_neq in Hneq. rewrite Hneq. reflexivity. }
  split.
  { intros label_msg Heq Hrec Hcopy. rewrite Hout, Hprep.
    apply String.eqb_eq in Heq. rewrite Heq. simpl.
    rewrite Hrec. simpl. rewrite normalize_unfold, Hcopy. reflexivity. }
  split.
  { intros Hnot c Hc. apply Hnot.
    destruct Hiff as [Hiff _]. apply Hiff. exists c. exact Hc. }
  intros c Hc Hsz. rewrite Hout in Hc.
  destruct (prepared_label self depth_msg label_msg_in info_msg) as [e | label_msg];
    simpl in Hc; [discriminate|].
  unfold dispatch in Hc.
  destruct (select_convert _ _) as [[| | |]|]; simpl in Hc; inversion Hc;
    apply convert_fills; exact Hsz.
Qed.

(** A published cloud is the result of one instantiation of [convert] on
    the fresh cloud of the depth image, the prepared label image and the
    working camera model. *)
Lemma published_cloud_is_convert (self : Nodelet)
  (depth_msg label_msg_in : Image) (info_msg : CameraInfo) (c : PointCloud2) :
  snd (imageCb self depth_msg label_msg_in info_msg) = Published c ->
  exists label_msg,
    prepared_label self depth_msg label_msg_in info_msg = inr label_msg /\
    let model := working_model self depth_msg label_msg_in info_msg in
    match select_convert (encoding depth_msg) (encoding label_msg) with
    | Some convert_uint16_int32 =>
        c = convert (T := uint16_t) (T2 := int32_t) model depth_msg label_msg (new_cloud depth_msg)
    | Some convert_uint16_uint8 =>
        c = convert (T := uint16_t) (T2 := uint8_t) model depth_msg label_msg (new_cloud depth_msg)
    | Some convert_float_int32 =>
        c = convert (T := float) (T2 := int32_t) model depth_msg label_msg (new_cloud depth_msg)
    | Some convert_float_uint8 =>
        c = convert (T := float) (T2 := uint8_t) model depth_msg label_msg (new_cloud depth_msg)
    | None => False
    end.
Proof.
  rewrite imageCb_outcome.
  destruct (prepared_label self depth_msg label_msg_in info_msg) as [e | label_msg];
    simpl; [discriminate|].
  intros H. exists label_msg. split; [reflexivity|].
  unfold dispatch in H.
  destruct (select_convert _ _) as [[| | |]|]; simpl in H; inversion H; reflexivity.
Qed.

Lemma convert_same_intrinsics {T T2 : Type}
  {PT : PixelType T} {DT : DepthType T} {traits : DepthTraits T}
  {PT2 : PixelType T2} {LT : LabelType T2}
  (m1 m2 : PinholeCameraModel) (depth_msg label_msg : Image) (cloud_msg : PointCloud2) :
  same_intrinsics m1 m2 ->
  convert (T := T) (T2 := T2) m1 depth_msg label_msg cloud_msg =
  convert (T := T) (T2 := T2) m2 depth_msg label_msg cloud_msg.
Proof.
  intros (Hfx & Hfy & Hcx & Hcy). unfold convert.
  rewrite Hfx, Hfy, Hcx, Hcy. reflexivity.
Qed.

Lemma dispatch_same_intrinsics (m1 m2 : PinholeCameraModel)
  (depth_msg label_msg : Image) (cloud_msg : PointCloud2) :
  same_intrinsics m1 m2 ->
  dispatch m1 depth_msg label_msg cloud_msg = dispatch m2 depth_msg label_msg cloud_msg.
Proof.
  intros Hsame. unfold dispatch.
  destruct (select_convert _ _) as [[| | |]|]; try reflexivity;
    f_equal; apply convert_same_intrinsics; exact Hsame.
Qed.

Lemma working_model_any_state {contract : VisionLibsSpec libs} (self1 self2 : Nodelet)
  (depth_msg label_msg_in : Image) (info_msg : CameraInfo) :
  same_intrinsics (working_model self1 depth_msg label_msg_in info_msg)
                  (working_model self2 depth_msg label_msg_in info_msg).
Proof.
  unfold working_model, reconcile.
  destruct (_ || _); simpl; apply fromCameraInfo_overwrites.
Qed.

(** C10. What the callback publishes for a triple depends on that triple
    alone: the camera model is derived anew from the triple's camera info
    before it is read, so after any two histories of earlier triples, from
    any two states, the callback gives the same outcome (the same cloud,
    or the same refusal). *)
Theorem outcome_history_free {contract : VisionLibsSpec libs} (self1 self2 : Nodelet)
  (history1 history2 : list (Image * Image * CameraInfo))
  (depth_msg label_msg_in : Image) (info_msg : CameraInfo) :
  snd (imageCb (run self1 history1) depth_msg label_msg_in info_msg) =
  snd (imageCb (run self2 history2) depth_msg label_msg_in info_msg).
Proof.
  generalize (run self1 history1) (run self2 history2). intros s1 s2.
  rewrite !imageCb_outcome.
  assert (Hprep : prepared_label s1 depth_msg label_msg_in info_msg =
                  prepared_label s2 depth_msg label_msg_in info_msg).
  { unfold prepared_label. destruct (negb _); [reflexivity|].
    rewrite (reconcile_label_any_model (fromCameraInfo (model_ s1) info_msg)
                                       (fromCameraInfo (model_ s2) info_msg)).
    reflexivity. }
  rewrite Hprep.
  destruct (prepared_label s2 depth_msg label_msg_in info_msg) as [e | label_msg];
    simpl; [reflexivity|].
  rewrite (dispatch_same_intrinsics _ _ depth_msg label_msg (new_cloud depth_msg)
             (working_model_any_state s1 s2 depth_msg label_msg_in info_msg)).
  reflexivity.
Qed.

End Callback.

(* ================================================================== *)
(** * The resolution reconciler *)
(* ================================================================== *)

Section Reconciler.

Context {libs : VisionLibs}.

Lemma scaled_K (depth_msg : Image) (ratio : float) (info_msg : CameraInfo) (j : nat) :
  nth_error (K (scaled_info depth_msg ratio info_msg)) j =
  if existsb (Nat.eqb j) [0; 2; 4; 5]%nat
  then option_map (scale_entry ratio) (nth_error (K info_msg) j)
  else nth_error (K info_msg) j.
Proof.
  unfold scaled_info. cbn [K]. rewrite !nth_error_scale_at.
  do 6 (destruct j as [|j]; [reflexivity|]). reflexivity.
Qed.

Lemma scaled_P (depth_msg : Image) (ratio : float) (info_msg : CameraInfo) (j : nat) :
  nth_error (P (scaled_info depth_msg ratio info_msg)) j =
  if existsb (Nat.eqb j) [0; 2; 5; 6]%nat
  then option_map (scale_entry ratio) (nth_error (P info_msg) j)
  else nth_error (P info_msg) j.
Proof.
  unfold scaled_info. cbn [P]. rewrite !nth_error_scale_at.
  do 7 (destruct j as [|j]; [reflexivity|]). reflexivity.
Qed.

(** C5 (what the code does instead). When the depth and label images
    differ in width or height, the reconciler takes [ratio = Wd / Wl] from
    the two widths (a float division); re-derives the camera model from a
    camera info whose [fx], [cx], [fy], [cy] entries of [K] and of [P] are
    each multiplied by [ratio], all other entries kept; crops the label
    matrix to the rows [0 .. n), [n] the floor of the float quotient
    [Hd / ratio] as rounded; and calls [resize] on the crop with the size
    [(Wd, Hd)], the scale factors [fx = 0.0] (the value of
    [cv::INTER_NEAREST], in the fourth place) and [fy = 0], and the
    default interpolation [INTER_LINEAR], not [INTER_NEAREST]. A label
    image comes out exactly when the three library calls succeed, and for
    a depth image with pixels it then has the depth image's width and
    height. *)
Theorem reconciler_requests_linear_resize {contract : VisionLibsSpec libs}
  (model0 : PinholeCameraModel) (depth_msg label_msg_in : Image) (info_msg : CameraInfo) :
  width depth_msg <> width label_msg_in \/ height depth_msg <> height label_msg_in ->
  well_sized depth_msg ->
  let ratio := F32.div (F32.of_Z (width depth_msg)) (F32.of_Z (width label_msg_in)) in
  let info_msg_tmp := scaled_info depth_msg ratio info_msg in
  let rows := F32.to_int (F32.div (F32.of_Z (height depth_msg)) ratio) in
  fst (reconcile model0 depth_msg label_msg_in info_msg) = fromCameraInfo model0 info_msg_tmp /\
  (forall j, nth_error (K info_msg_tmp) j =
             if existsb (Nat.eqb j) [0; 2; 4; 5]%nat
             then option_map (fun d => F64.mul d (F64.of_float ratio)) (nth_error (K info_msg) j)
             else nth_error (K info_msg) j) /\
  (forall j, nth_error (P info_msg_tmp) j =
             if existsb (Nat.eqb j) [0; 2; 5; 6]%nat
             then option_map (fun d => F64.mul d (F64.of_float ratio)) (nth_error (P info_msg) j)
             else nth_error (P info_msg) j) /\
  (forall q, SF2Q (F32.div (F32.of_Z (height depth_msg)) ratio) = Some q ->
             (0 <= q)%Q -> Qfloor q < 2 ^ 31 -> rows = Qfloor q) /\
  (forall out,
     snd (reconcile model0 depth_msg label_msg_in info_msg) = inr out <->
     exists cv_ptr cropped rsz,
       toCvShare label_msg_in (encoding label_msg_in) = Some cv_ptr /\
       rowRange (image cv_ptr) 0 rows = Some cropped /\
       resize cropped (width depth_msg, height depth_msg)
              (F64.of_Z 0) (F64.of_Z 0) INTER_LINEAR = Some rsz /\
       out = toImageMsg {| cv_header := cv_header cv_ptr;
                           cv_encoding := cv_encoding cv_ptr;
                           image := rsz |}) /\
  (forall out,
     snd (reconcile model0 depth_msg label_msg_in info_msg) = inr out ->
     0 < width depth_msg -> 0 < height depth_msg ->
     width out = width depth_msg /\ height out = height depth_msg).
Proof.
  intros Hdiff Hsz ratio info_msg_tmp rows.
  assert (Hcond : negb (width depth_msg =? width label_msg_in)
                  || negb (height depth_msg =? height label_msg_in) = true).
  { destruct Hdiff as [H | H]; apply Z.eqb_neq in H; rewrite H; simpl;
      [reflexivity | apply orb_true_r]. }
  destruct Hsz as [Hw Hh].
  assert (Hrec : reconcile model0 depth_msg label_msg_in info_msg =
    (fromCameraInfo model0 info_msg_tmp,
     cv_ptr <- try_ (toCvShare label_msg_in (encoding label_msg_in)) CvBridgeException ;;
     cropped <- try_ (rowRange (image cv_ptr) 0 rows) UncaughtCvException ;;
     rsz <- try_ (resize cropped (width depth_msg, height depth_msg)
                         (F64.of_Z 0) (F64.of_Z 0) INTER_LINEAR)
                 UncaughtCvException ;;
     inr (toImageMsg {| cv_header := cv_header cv_ptr;
                        cv_encoding := cv_encoding cv_ptr;
                        image := rsz |}))).
  { unfold reconcile. rewrite Hcond.
    rewrite (to_int_small _ Hw), (to_int_small _ Hh). reflexivity. }
  assert (Hiff : forall out,
     snd (reconcile model0 depth_msg label_msg_in info_msg) = inr out <->
     exists cv_ptr cropped rsz,
       toCvShare label_msg_in (encoding label_msg_in) = Some cv_ptr /\
       rowRange (image cv_ptr) 0 rows = Some cropped /\
       resize cropped (width depth_msg, height depth_msg)
              (F64.of_Z 0) (F64.of_Z 0) INTER_LINEAR = Some rsz /\
       out = toImageMsg {| cv_header := cv_header cv_ptr;
                           cv_encoding := cv_encoding cv_ptr;
                           image := rsz |}).
  { intros out. rewrite Hrec. cbn [snd]. split.
    - destruct (toCvShare label_msg_in (encoding label_msg_in)) as [cv_ptr|] eqn:Ecv;
        cbn [try_ bind]; [|discriminate].
      destruct (rowRange (image cv_ptr) 0 rows) as [cropped|] eqn:Ecrop;
        cbn [try_ bind]; [|discriminate].
      destruct (resize cropped (width depth_msg, height depth_msg)
                       (F64.of_Z 0) (F64.of_Z 0) INTER_LINEAR)
        as [rsz|] eqn:Ersz; cbn [try_ bind]; [|discriminate].
      intros H. inversion H. exists cv_ptr, cropped, rsz.
      repeat split; solve [assumption | reflexivity].
    - intros (cv_ptr & cropped & rsz & Hcv & Hcrop & Hrsz & Hout).
      rewrite Hcv. cbn [try_ bind]. rewrite Hcrop. cbn [try_ bind].
      rewrite Hrsz. cbn [try_ bind]. congruence. }
  split; [rewrite Hrec; reflexivity|].
  split; [intros j; apply scaled_K|].
  split; [intros j; apply scaled_P|].
  split; [intros q Hq Hpos Hlt; apply to_int_floor; assumption|].
  split; [exact Hiff|].
  intros out Hout Hwpos Hhpos. apply Hiff in Hout.
  destruct Hout as (cv_ptr & cropped & rsz & _ & _ & Hrsz & Hout). subst out.
  destruct (toImageMsg_size {| cv_header := cv_header cv_ptr;
                               cv_encoding := cv_encoding cv_ptr;
                               image := rsz |}) as [Hwo Hho].
  rewrite Hwo, Hho. cbn [image].
  eapply resize_size; [exact Hwpos | exact Hhpos | exact Hrsz].
Qed.

End Reconciler.

(* ================================================================== *)
(** * The 16-bit depth trait *)
(* ================================================================== *)

Lemma byte_at_range (d : list Byte.byte) (i : Z) : 0 <= byte_at d i < 256.
Proof.
  unfold byte_at. destruct (i <? 0); [lia|].
  pose proof (Byte.to_N_bounded (nth (Z.to_nat i) d Byte.x00)). lia.
Qed.

Lemma read_le_2_range (d : list Byte.byte) (off : Z) : 0 <= read_le 2 d off < 65536.
Proof.
  cbn [read_le].
  pose proof (byte_at_range d off). pose proof (byte_at_range d (off + 1)). lia.
Qed.

Lemma read_le_4_range (d : list Byte.byte) (off : Z) : 0 <= read_le 4 d off < 2 ^ 32.
Proof.
  cbn [read_le].
  pose proof (byte_at_range d off). pose proof (byte_at_range d (off + 1)).
  pose proof (byte_at_range d (off + 1 + 1)). pose proof (byte_at_range d (off + 1 + 1 + 1)).
  lia.
Qed.

Lemma all_from_spec (f : Z -> bool) (n : nat) :
  forall z, all_from n z f = true ->
            forall k, z <= k < z + Z.of_nat n -> f k = true.
Proof.
  induction n as [|n IH]; intros z Hall k Hk.
  - simpl in Hk. lia.
  - cbn [all_from] in Hall. apply andb_prop in Hall. destruct Hall as [Hz Hrest].
    destruct (Z.eq_dec k z) as [-> | Hne]; [exact Hz|].
    apply (IH (z + 1) Hrest). lia.
Qed.

(** Every 16-bit sample scales to a finite depth: checked on all 65536. *)
Lemma uint16_metres_finite_all :
  all_from (Z.to_nat 65536) 0
           (fun n => SFis_finite (F32.mul (F32.of_Z n) lit_0_001f)) = true.
Proof. vm_compute. reflexivity. Qed.

Lemma uint16_toMeters_finite (d : list Byte.byte) (i : Z) :
  SFis_finite (toMeters (DepthTraits := DepthTraits_uint16) (load (T := uint16_t) d i)) = true.
Proof.
  cbn [toMeters DepthTraits_uint16 load pixel_uint16 uint16_val].
  pose proof (read_le_2_range d (2 * i)) as Hr.
  apply (all_from_spec _ _ _ uint16_metres_finite_all).
  rewrite Z2Nat.id by lia. lia.
Qed.

(** The label written for a 32-bit signed sample is the 32-bit word of the
    label buffer itself; for an 8-bit sample, the byte. *)
Lemma int32_label_word (d : list Byte.byte) (i : Z) :
  as_uint32 (load (T := int32_t) d i) = read_le 4 d (4 * i).
Proof.
  unfold as_uint32, to_uint32. cbn [label_value label_int32 load pixel_int32 int32_val].
  pose proof (read_le_4_range d (4 * i)) as Hr. unfold to_int.
  rewrite Zminus_mod_idemp_l.
  replace (read_le 4 d (4 * i) + 2 ^ 31 - 2 ^ 31) with (read_le 4 d (4 * i)) by lia.
  apply Z.mod_small. exact Hr.
Qed.

Lemma uint8_label_byte (d : list Byte.byte) (i : Z) :
  as_uint32 (load (T := uint8_t) d i) = byte_at d i /\
  is_negative (load (T := uint8_t) d i) = false.
Proof.
  unfold as_uint32, is_negative, to_uint32.
  cbn [label_value label_uint8 load pixel_uint8 uint8_val read_le].
  pose proof (byte_at_range d i) as Hr. split.
  - rewrite Z.mod_small by lia. lia.
  - apply Z.ltb_ge. lia.
Qed.

(* ================================================================== *)
(** * The scenarios of the specification, run *)
(* ================================================================== *)

Lemma well_sized_depthA : well_sized depthA.
Proof. unfold well_sized. cbn. lia. Qed.

Lemma well_sized_depthC : well_sized depthC.
Proof. unfold well_sized. cbn. lia. Qed.

(** Scenario A, pixel (row 1, column 3): [z] is 1.0 and [x] is the float
    nearest to 0.01 from above, [1000 * float(0.001f / 100)]. *)
Lemma scenarioA_valid_pixel :
  well_sized depthA /\
  valid (DepthTraits := DepthTraits_uint16) (depth_at (T := uint16_t) depthA 1 3) = true /\
  is_negative (label_at (T2 := int32_t) labelA 1 3) = false /\
  exists p,
    nth_error (points (plain_convert_uint16_int32 modelA depthA labelA (new_cloud depthA))) 7
      = Some p /\
    pt_z p = F32.of_Z 1 /\
    pt_x p = S754_finite false 10737419 (-30).
Proof.
  assert (Hv : valid (DepthTraits := DepthTraits_uint16)
                     (depth_at (T := uint16_t) depthA 1 3) = true)
    by (vm_compute; reflexivity).
  assert (Hl : is_negative (label_at (T2 := int32_t) labelA 1 3) = false)
    by (vm_compute; reflexivity).
  split; [exact well_sized_depthA|]. split; [exact Hv|]. split; [exact Hl|].
  destruct (valid_pixel_projection (libs := Plain.plain_libs) (T := uint16_t) (T2 := int32_t)
              (traits := DepthTraits_uint16) modelA depthA labelA 1 3 well_sized_depthA
              ltac:(cbn; lia) ltac:(cbn; lia) Hv Hl) as (p & Hp & Hz & Hx & Hy).
  exists p. split; [exact Hp|]. split.
  - rewrite Hz. vm_compute. reflexivity.
  - rewrite Hx. vm_compute. reflexivity.
Defined.

(** Scenario B, pixel (row 1, column 2), label -1: NaN three times and the
    label word [0xFFFFFFFF]. *)
Lemma scenarioB_negative_label :
  well_sized depthA /\
  is_negative (label_at (T2 := int32_t) labelB 1 2) = true /\
  exists p,
    nth_error (points (plain_convert_uint16_int32 modelA depthA labelB (new_cloud depthA))) 6
      = Some p /\
    pt_x p = S754_nan /\ pt_y p = S754_nan /\ pt_z p = S754_nan /\
    pt_label p = 0xFFFFFFFF.
Proof.
  assert (Hl : is_negative (label_at (T2 := int32_t) labelB 1 2) = true)
    by (vm_compute; reflexivity).
  split; [exact well_sized_depthA|]. split; [exact Hl|].
  destruct (invalid_pixel_nan_label_kept (libs := Plain.plain_libs)
              (T := uint16_t) (T2 := int32_t) (traits := DepthTraits_uint16)
              modelA depthA labelB 1 2 well_sized_depthA
              ltac:(cbn; lia) ltac:(cbn; lia) (or_intror Hl))
    as (p & Hp & Hx & Hy & Hz & Hlab & _).
  exists p. split; [exact Hp|]. repeat (split; [assumption|]).
  rewrite Hlab. vm_compute. reflexivity.
Defined.

(** Scenario B, the whole cloud: twelve points, each all NaN or with a
    finite depth. *)
Lemma scenarioB_every_point :
  well_sized depthA /\
  List.length (points (plain_convert_uint16_int32 modelA depthA labelB (new_cloud depthA)))
    = 12%nat /\
  forall i p,
    nth_error (points (plain_convert_uint16_int32 modelA depthA labelB (new_cloud depthA))) i
      = Some p ->
    all_nan p = true \/ SFis_finite (pt_z p) = true.
Proof.
  pose proof (every_point_nan_or_finite_depth (libs := Plain.plain_libs)
                (T := uint16_t) (T2 := int32_t) (traits := DepthTraits_uint16)
                modelA depthA labelB well_sized_depthA
                (fun v u _ => uint16_toMeters_finite (data depthA) _)) as H.
  split; [exact well_sized_depthA|].
  destruct H as [Hlen Hall]. split; [exact Hlen|].
  intros i p Hp. destruct (Hall i p Hp) as (v & u & _ & _ & _ & _ & [Hnan | Hfin]).
  - left. exact Hnan.
  - right. apply Hfin.
Defined.

(** Scenario A: the published cloud is 4x3 like the depth image, with the
    depth image's header. *)
Lemma scenarioA_cloud_layout :
  exists c,
    snd (plain_imageCb idle depthA labelA infoA) = Published c /\
    pc_width c = 4 /\ pc_height c = 3 /\
    fields c = xyzl_fields /\ is_dense c = false /\ pc_header c = header depthA.
Proof.
  eexists. split; [vm_compute; reflexivity|].
  apply (published_cloud_layout (libs := Plain.plain_libs)
           (traits_uint16 := DepthTraits_uint16) (traits_float := DepthTraits_float)
           idle depthA labelA infoA).
  vm_compute. reflexivity.
Defined.

(** A 10x15 label image for a 6x9 depth image: the ratio is the float
    nearest to 0.6, the float quotient [9 / ratio] falls just below 15,
    and the crop keeps 14 rows where [floor(9 / (6 / 10))] is 15. *)
Lemma downscale_crop_and_resize_call :
  VisionLibsSpec Plain.plain_libs /\
  (width depth_6x9 <> width label_10x15 \/ height depth_6x9 <> height label_10x15) /\
  well_sized depth_6x9 /\
  F32.to_int (F32.div (F32.of_Z (height depth_6x9))
                      (F32.div (F32.of_Z (width depth_6x9)) (F32.of_Z (width label_10x15))))
    = 14 /\
  Qfloor (9 / (6 / 10)) = 15.
Proof.
  assert (Hdiff : width depth_6x9 <> width label_10x15 \/
                  height depth_6x9 <> height label_10x15) by (left; cbn; lia).
  assert (Hsz : well_sized depth_6x9) by (unfold well_sized; cbn; lia).
  split; [exact plain_contract|]. split; [exact Hdiff|]. split; [exact Hsz|].
  split; [|reflexivity].
  destruct (reconciler_requests_linear_resize (libs := Plain.plain_libs)
              (contract := plain_contract) modelA depth_6x9 label_10x15 infoA Hdiff Hsz)
    as (_ & _ & _ & Hfloor & _ & _).
  rewrite (Hfloor (Qmake 15728639 1048576)); vm_compute; solve [reflexivity | discriminate].
Defined.

(** The same effect at 1920x1080 against 1600x900: 899 rows, not 900. *)
Lemma full_hd_crop_rows :
  F32.to_int (F32.div (F32.of_Z 1080) (F32.div (F32.of_Z 1920) (F32.of_Z 1600))) = 899 /\
  Qfloor (1080 / (1920 / 1600)) = 900.
Proof. split; vm_compute; reflexivity. Qed.

(** Scenario A through the reconciler: nothing changes. *)
Lemma scenarioA_passes_through :
  width depthA = width labelA /\ height depthA = height labelA /\
  reconcile (libs := Plain.plain_libs) modelA depthA labelA infoA = (modelA, inr labelA).
Proof.
  split; [reflexivity|]. split; [reflexivity|].
  apply (equal_sizes_pass_through (libs := Plain.plain_libs) idle depthA labelA infoA);
    reflexivity.
Defined.

(** Scenario A is published. *)
Lemma scenarioA_published :
  VisionLibsSpec Plain.plain_libs /\
  exists c, snd (plain_imageCb idle depthA labelA infoA) = Published c.
Proof.
  split; [exact plain_contract|].
  apply (proj1 (publishes_iff_no_error (libs := Plain.plain_libs) (contract := plain_contract)
                  (traits_uint16 := DepthTraits_uint16) (traits_float := DepthTraits_float)
                  idle depthA labelA infoA)).
  split; [reflexivity|]. split.
  - eexists. eexists. split; vm_compute; reflexivity.
  - left. reflexivity.
Defined.

(** An 8UC1 label next to scenario A's depth reaches the dispatch as
    32SC1. *)
Lemma label8_reaches_dispatch_as_32SC1 :
  VisionLibsSpec Plain.plain_libs /\
  exists label_msg,
    prepared_label (libs := Plain.plain_libs) idle depthA label8 infoA = inr label_msg /\
    encoding label_msg = TYPE_32SC1.
Proof.
  split; [exact plain_contract|].
  eexists. split; [vm_compute; reflexivity|].
  apply (label_always_converted (libs := Plain.plain_libs) (contract := plain_contract)
           idle depthA label8 infoA).
  vm_compute. reflexivity.
Defined.

(** The 8UC1 label of [label8] does not pass the normalizer unchanged. *)
Lemma label8_not_passed_through :
  VisionLibsSpec Plain.plain_libs /\
  encoding label8 = TYPE_8UC1 /\
  normalize (libs := Plain.plain_libs) label8 <> inr label8.
Proof.
  split; [exact plain_contract|]. split; [reflexivity|].
  apply (supported_8UC1_label_is_converted (libs := Plain.plain_libs)
           (contract := plain_contract) label8).
  reflexivity.
Defined.

(** Scenario A gives the same outcome on an idle nodelet and on one that
    has just processed scenario C. *)
Lemma scenarioA_after_scenarioC :
  VisionLibsSpec Plain.plain_libs /\
  snd (plain_imageCb (run (libs := Plain.plain_libs)
                          (traits_uint16 := DepthTraits_uint16)
                          (traits_float := DepthTraits_float) idle [])
                     depthA labelA infoA) =
  snd (plain_imageCb (run (libs := Plain.plain_libs)
                          (traits_uint16 := DepthTraits_uint16)
                          (traits_float := DepthTraits_float) idle [(depthC, labelC, infoC)])
                     depthA labelA infoA).
Proof.
  split; [exact plain_contract|].
  apply (outcome_history_free (libs := Plain.plain_libs) (contract := plain_contract)
           (traits_uint16 := DepthTraits_uint16) (traits_float := DepthTraits_float)).
Defined.

(* ================================================================== *)
(** * Where the projection leaves the specification *)
(* ================================================================== *)

(** C1 fails as stated. One 16-bit pixel of 65535 mm, label 7, seen by a
    camera with [fx = 525] and [cx = -2^113]: the pixel is valid and [z]
    is 65.535, the exact projection [(0 - cx) * z / fx] is a rational
    (about 1.3e33), but the product [(u - center_x) * depth] is
    [2^113 * 65535], beyond the largest float, so the [x] the code writes
    is infinite and within no tolerance of it. *)
Lemma far_principal_point_overflows :
  exists c p r,
    snd (plain_imageCb idle depth_far label_far info_far) = Published c /\
    nth_error (points c) 0 = Some p /\
    valid (DepthTraits := DepthTraits_uint16) (depth_at (T := uint16_t) depth_far 0 0) = true /\
    is_negative (label_at (T2 := int32_t) label_far 0 0) = false /\
    pt_z p = toMeters (DepthTraits := DepthTraits_uint16) (depth_at (T := uint16_t) depth_far 0 0) /\
    projected 0 (cx (working_model (libs := Plain.plain_libs) idle depth_far label_far info_far))
              (pt_z p)
              (fx (working_model (libs := Plain.plain_libs) idle depth_far label_far info_far))
      = Some r /\
    pt_x p = S754_infinity false /\
    ~ within_tolerance (1 # 100000) (pt_x p) r.
Proof.
  eexists. eexists. eexists.
  split; [vm_compute; reflexivity|].
  split; [reflexivity|].
  split; [vm_compute; reflexivity|].
  split; [vm_compute; reflexivity|].
  split; [vm_compute; reflexivity|].
  split; [vm_compute; reflexivity|].
  split; [reflexivity|].
  intros (q & Hq & _). discriminate Hq.
Qed.

(** The same at ordinary magnitudes, for an absolute tolerance: in a
    1600-column image with [fx = 400], [cx = 799.5], the first pixel at
    65000 mm has [x] near -129.9 m, where floats are 1.5e-5 apart; the
    [x] the code writes is more than 1e-5 away from the exact
    [(0 - cx) * z / fx]. *)
Lemma wide_image_exceeds_absolute_tolerance :
  exists c p r,
    snd (plain_imageCb idle depth_wide label_wide info_wide) = Published c /\
    nth_error (points c) 0 = Some p /\
    projected 0 (cx (working_model (libs := Plain.plain_libs) idle depth_wide label_wide info_wide))
              (pt_z p)
              (fx (working_model (libs := Plain.plain_libs) idle depth_wide label_wide info_wide))
      = Some r /\
    ~ within_absolute (1 # 100000) (pt_x p) r.
Proof.
  eexists. eexists. eexists.
  split; [vm_compute; reflexivity|].
  split; [reflexivity|].
  split; [vm_compute; reflexivity|].
  intros (q & Hq & Hle).
  vm_compute in Hq. injection Hq as <-.
  vm_compute in Hle. apply Hle. reflexivity.
Qed.

(** C8 fails as stated. One float pixel holding the largest finite float,
    label 7, seen by a 640x480 camera ([fx = fy = 525], [cx = 319.5],
    [cy = 239.5], all finite and nonzero): the pixel is valid and [z] is
    finite, but [(0 - 319.5) * depth] overflows, so [x] and [y] are
    minus infinity: the three coordinates are neither all NaN nor all
    finite. *)
Lemma largest_float_depth_overflows :
  exists c p,
    snd (plain_imageCb idle depth_max label_max info_max) = Published c /\
    nth_error (points c) 0 = Some p /\
    finite_nonzero (fx (working_model (libs := Plain.plain_libs) idle depth_max label_max info_max))
    && finite_nonzero (fy (working_model (libs := Plain.plain_libs) idle depth_max label_max info_max))
    && finite_nonzero (cx (working_model (libs := Plain.plain_libs) idle depth_max label_max info_max))
    && finite_nonzero (cy (working_model (libs := Plain.plain_libs) idle depth_max label_max info_max))
      = true /\
    valid (DepthTraits := DepthTraits_float) (depth_at (T := float) depth_max 0 0) = true /\
    SFis_finite (depth_at (T := float) depth_max 0 0) = true /\
    is_negative (label_at (T2 := int32_t) label_max 0 0) = false /\
    SFis_finite (pt_z p) = true /\
    pt_x p = S754_infinity true /\
    pt_y p = S754_infinity true /\
    all_nan p = false /\ all_finite p = false.
Proof.
  eexists. eexists.
  split; [vm_compute; reflexivity|].
  split; [reflexivity|].
  repeat split; vm_compute; reflexivity.
Qed.

(* ================================================================== *)
(** * Subscriptions on demand *)
(* ================================================================== *)

Lemma connectCb_all_or_none (self : Wiring) (n : Z) (private_nh : Params) :
  all_or_none self -> all_or_none (connectCb self n private_nh).
Proof.
  intros Hinv. unfold connectCb.
  destruct (n =? 0); [split; reflexivity|].
  destruct (sub_depth_ self) eqn:Ed; [|split; reflexivity].
  exact Hinv.
Qed.

Lemma connectCb_live (self : Wiring) (n : Z) (private_nh : Params) :
  is_some (sub_depth_ (connectCb self n private_nh)) = negb (n =? 0).
Proof.
  unfold connectCb. destruct (n =? 0); [reflexivity|].
  destruct (sub_depth_ self) eqn:Ed; simpl; [rewrite Ed|]; reflexivity.
Qed.

Lemma connectCb_keeps_publisher (self : Wiring) (n : Z) (private_nh : Params) :
  pub_point_cloud_ (connectCb self n private_nh) = pub_point_cloud_ self /\
  sync_queue_size (connectCb self n private_nh) = sync_queue_size self.
Proof.
  unfold connectCb. destruct (n =? 0); [split; reflexivity|].
  destruct (sub_depth_ self); split; reflexivity.
Qed.

Lemma connect_all_invariant (events : list ConnectEvent) :
  forall self, all_or_none self ->
    all_or_none (connect_all self events) /\
    pub_point_cloud_ (connect_all self events) = pub_point_cloud_ self /\
    sync_queue_size (connect_all self events) = sync_queue_size self.
Proof.
  induction events as [|[n ps] rest IH]; intros self Hinv; simpl.
  - repeat split; apply Hinv.
  - destruct (IH (connectCb self n ps) (connectCb_all_or_none self n ps Hinv))
      as (Hall & Hpub & Hq).
    destruct (connectCb_keeps_publisher self n ps) as [Hpub' Hq'].
    unfold connect_all in *. simpl. repeat split; try apply Hall; congruence.
Qed.

(** From [onInit] on, through any sequence of connection callbacks: the
    three input subscriptions are all live or all absent; none is live
    before the first callback; after a callback they are live exactly
    when that callback found a subscriber count other than zero; and the
    publisher and the synchronizer queue size stay as [onInit] set them,
    the queue size being the [int] parameter [queue_size] (default 5)
    converted to [uint32_t]. *)
Theorem subscriptions_follow_demand (private_nh : Params) (events : list ConnectEvent) :
  let w := connect_all (onInit private_nh) events in
  all_or_none w /\
  (events = [] -> sub_depth_ w = None /\ sub_label_ w = None /\ sub_info_ w = None) /\
  (forall earlier n ps, events = (earlier ++ [(n, ps)])%list ->
     is_some (sub_depth_ w) = negb (n =? 0)) /\
  pub_point_cloud_ w = pub_point_cloud_ (onInit private_nh) /\
  sync_queue_size w = to_uint32 (param_int private_nh "queue_size" 5).
Proof.
  intros w.
  destruct (connect_all_invariant events (onInit private_nh)) as (Hall & Hpub & Hq);
    [split; reflexivity|].
  split; [exact Hall|]. split.
  - intros ->. repeat split.
  - split; [|split; [exact Hpub | exact Hq]].
    intros earlier n ps ->. unfold w, connect_all.
    rewrite fold_left_app. simpl. apply connectCb_live.
Qed.

Lemma connectCb_while_live (self : Wiring) (n : Z) (private_nh : Params) :
  n <> 0 -> is_some (sub_depth_ self) = true -> connectCb self n private_nh = self.
Proof.
  intros Hn Hlive. unfold connectCb.
  apply Z.eqb_neq in Hn. rewrite Hn.
  destruct (sub_depth_ self); [reflexivity | discriminate].
Qed.

(** While every connection callback finds at least one subscriber, only
    the first one acts: the later ones leave the subscriptions (topics,
    queue sizes and the transports read from the parameters at the first
    callback) exactly as they are, whatever the parameters have become. *)
Theorem attached_consumers_keep_subscriptions
  (self : Wiring) (first : ConnectEvent) (later : list ConnectEvent) :
  fst first <> 0 ->
  Forall (fun e => fst e <> 0) later ->
  connect_all self (first :: later) = connectCb self (fst first) (snd first).
Proof.
  intros Hfirst Hlater. unfold connect_all. simpl.
  assert (Hlive : is_some (sub_depth_ (connectCb self (fst first) (snd first))) = true).
  { rewrite connectCb_live. apply Z.eqb_neq in Hfirst. rewrite Hfirst. reflexivity. }
  generalize dependent (connectCb self (fst first) (snd first)).
  induction Hlater as [|e rest He Hrest IH]; intros w Hlive; simpl.
  - reflexivity.
  - rewrite (connectCb_while_live w (fst e) (snd e) He Hlive). apply IH. exact Hlive.
Qed.

(* ================================================================== *)
(** * More on the dispatch and on the pixels *)
(* ================================================================== *)

Section DispatchFacts.

Context {libs : VisionLibs}.
Context {traits_uint16 : DepthTraits uint16_t} {traits_float : DepthTraits float}.

(** The dispatch runs a conversion exactly when the depth encoding is
    16UC1 or 32FC1 and the label encoding is 32SC1 or mono8. A label
    encoded 8UC1 is refused, and every refusal is the unsupported depth
    encoding exit, whatever the depth encoding is. *)
Theorem dispatch_accepts (model : PinholeCameraModel)
  (depth_msg label_msg : Image) (cloud_msg : PointCloud2) :
  ((exists c, dispatch model depth_msg label_msg cloud_msg = inr c) <->
   (supported_depth (encoding depth_msg) /\
    (encoding label_msg = TYPE_32SC1 \/ encoding label_msg = MONO8))) /\
  (encoding label_msg = TYPE_8UC1 ->
   dispatch model depth_msg label_msg cloud_msg = inl UnsupportedDepthEncoding) /\
  (forall e, dispatch model depth_msg label_msg cloud_msg = inl e ->
             e = UnsupportedDepthEncoding).
Proof.
  split; [|split].
  - rewrite dispatch_publishes. apply select_convert_some.
  - intros Henc.
    assert (Hnone : select_convert (encoding depth_msg) (encoding label_msg) = None).
    { destruct (select_convert (encoding depth_msg) (encoding label_msg)) eqn:Es;
        [|reflexivity].
      assert (Hsome : select_convert (encoding depth_msg) (encoding label_msg) <> None)
        by congruence.
      apply select_convert_some in Hsome. rewrite Henc in Hsome.
      destruct Hsome as [_ [H | H]]; discriminate. }
    unfold dispatch. rewrite Hnone. reflexivity.
  - intros e. unfold dispatch.
    destruct (select_convert _ _) as [[| | |]|]; intros H; inversion H; reflexivity.
Qed.

End DispatchFacts.

(** Where [convert] reads pixel [(v, u)]: when the row step is a multiple
    of the sample size, at byte [v * step + u * sizeof(T)] of the buffer,
    so rows may be padded. *)
Theorem pixel_addressing (img : Image) (v u : Z) :
  0 <= step img < 2 ^ 32 ->
  (step img mod 2 = 0 ->
   depth_at (T := uint16_t) img v u = mk_uint16 (read_le 2 (data img) (v * step img + 2 * u))) /\
  (step img mod 4 = 0 ->
   depth_at (T := float) img v u = F32.of_bits (read_le 4 (data img) (v * step img + 4 * u))) /\
  (step img mod 4 = 0 ->
   label_at (T2 := int32_t) img v u =
   mk_int32 (to_int (read_le 4 (data img) (v * step img + 4 * u)))) /\
  (step img < 2 ^ 31 ->
   label_at (T2 := uint8_t) img v u = mk_uint8 (byte_at (data img) (v * step img + u))).
Proof.
  intros Hstep. unfold depth_at, label_at. cbn [sizeof load pixel_uint16 pixel_float
    pixel_int32 pixel_uint8 read_le].
  assert (H2 : to_int (step img / 2) = step img / 2).
  { apply to_int_small. split; [apply Z.div_pos; lia | apply Z.div_lt_upper_bound; lia]. }
  assert (H4 : to_int (step img / 4) = step img / 4).
  { apply to_int_small. split; [apply Z.div_pos; lia | apply Z.div_lt_upper_bound; lia]. }
  assert (Hexact : forall k, 0 < k -> step img mod k = 0 ->
                   k * (v * (step img / k) + u) = v * step img + k * u).
  { intros k Hk Hm. pose proof (Z.div_mod (step img) k ltac:(lia)) as Hs.
    rewrite Hm, Z.add_0_r in Hs. set (q := step img / k) in *.
    rewrite Hs. ring. }
  repeat split.
  - intros Hm. rewrite H2, (Hexact 2) by (lia || exact Hm). reflexivity.
  - intros Hm. rewrite H4, (Hexact 4) by (lia || exact Hm). reflexivity.
  - intros Hm. rewrite H4, (Hexact 4) by (lia || exact Hm). reflexivity.
  - intros Hlt. rewrite Z.div_1_r. rewrite to_int_small by lia. f_equal. lia.
Qed.

Lemma write_nil {A : Type} (i : nat) (a : A) : write i a [] = [].
Proof. destruct i; reflexivity. Qed.

Section MorePixels.

Context {libs : VisionLibs}.
Context {T : Type} {PT : PixelType T} {DT : DepthType T} {traits : DepthTraits T}.

Lemma convert_row_nil {T2 : Type} {PT2 : PixelType T2} {LT : LabelType T2}
  (c_x c_y k_x k_y : float) (dd ld : list Byte.byte) (dr lr v : Z) (n : nat) :
  forall u it,
    snd (convert_row (T := T) (T2 := T2) c_x c_y k_x k_y dd ld dr lr v n u it []) = [].
Proof.
  induction n as [|n IH]; intros u it; simpl; [reflexivity|].
  rewrite write_nil. apply IH.
Qed.

Lemma convert_rows_nil {T2 : Type} {PT2 : PixelType T2} {LT : LabelType T2}
  (c_x c_y k_x k_y : float) (dd ld : list Byte.byte) (rs lrs : Z) (w n : nat) :
  forall v dr lr it,
    snd (convert_rows (T := T) (T2 := T2) c_x c_y k_x k_y dd ld rs lrs w n v dr lr it []) = [].
Proof.
  induction n as [|n IH]; intros v dr lr it; simpl; [reflexivity|].
  pose proof (convert_row_nil (T2 := T2) c_x c_y k_x k_y dd ld dr lr v w 0 it) as Hrow.
  destruct (convert_row c_x c_y k_x k_y dd ld dr lr v w 0 it []) as [it' pts'].
  simpl in Hrow. subst pts'. apply IH.
Qed.

Lemma convert_empty {T2 : Type} {PT2 : PixelType T2} {LT : LabelType T2}
  (model : PinholeCameraModel) (depth_msg label_msg : Image) :
  height depth_msg = 0 \/ width depth_msg = 0 ->
  points (convert (T := T) (T2 := T2) model depth_msg label_msg (new_cloud depth_msg)) = [].
Proof.
  intros Hzero. unfold convert. rewrite new_cloud_unfold. cbn [points pc_width pc_height].
  replace (height depth_msg * width depth_msg) with 0 by (destruct Hzero as [-> | ->]; lia).
  cbn [Z.to_nat repeat].
  match goal with
  | |- context [convert_rows ?a ?b ?c ?d ?e ?f ?g ?h ?i ?j ?k ?l ?m ?n []] =>
      pose proof (convert_rows_nil (T2 := T2) a b c d e f g h i j k l m n) as Hnil;
      destruct (convert_rows a b c d e f g h i j k l m n []) as [it pts]
  end.
  simpl in Hnil. subst pts. reflexivity.
Qed.

(** With 8-bit labels the label test of line 298 never fires: a pixel
    whose depth is valid is projected whatever its label byte, and the
    label written is that byte. *)
Theorem uint8_label_never_invalidates (model : PinholeCameraModel)
  (depth_msg label_msg : Image) (v u : Z) :
  well_sized depth_msg ->
  0 <= v < height depth_msg -> 0 <= u < width depth_msg ->
  exists p,
    nth_error (points (convert (T := T) (T2 := uint8_t) model depth_msg label_msg
                               (new_cloud depth_msg)))
              (Z.to_nat (v * width depth_msg + u)) = Some p /\
    pt_label p = byte_at (data label_msg) (v * to_int (step label_msg) + u) /\
    (valid (depth_at (T := T) depth_msg v u) = true ->
     pt_z p = toMeters (depth_at (T := T) depth_msg v u)) /\
    (valid (depth_at (T := T) depth_msg v u) = false -> all_nan p = true).
Proof.
  intros Hsz Hv Hu.
  destruct (convert_fills (T := T) (T2 := uint8_t) model depth_msg label_msg Hsz) as [_ Hat].
  exists (point_of (T := T) (T2 := uint8_t) model depth_msg label_msg v u).
  split; [apply Hat; assumption|].
  unfold point_of, label_at. cbn [sizeof pixel_uint8]. rewrite Z.div_1_r.
  destruct (uint8_label_byte (data label_msg) (v * to_int (step label_msg) + u))
    as [Hbyte Hneg].
  split; [|split].
  - unfold convert_point. destruct (negb _ || _); exact Hbyte.
  - intros Hvalid. rewrite (convert_point_valid _ _ _ _ _ _ _ _ Hvalid Hneg). reflexivity.
  - intros Hvalid. rewrite convert_point_invalid by (left; exact Hvalid). reflexivity.
Qed.

(** With 32-bit labels the label written is the 32-bit little-endian
    word of the label buffer at that pixel, unchanged, and the label
    test fires exactly when the top bit of that word is set. *)
Theorem int32_label_word_kept (model : PinholeCameraModel)
  (depth_msg label_msg : Image) (v u : Z) :
  well_sized depth_msg ->
  0 <= v < height depth_msg -> 0 <= u < width depth_msg ->
  let word := read_le 4 (data label_msg) (4 * (v * to_int (step label_msg / 4) + u)) in
  exists p,
    nth_error (points (convert (T := T) (T2 := int32_t) model depth_msg label_msg
                               (new_cloud depth_msg)))
              (Z.to_nat (v * width depth_msg + u)) = Some p /\
    pt_label p = word /\
    is_negative (label_at (T2 := int32_t) label_msg v u) = (2 ^ 31 <=? word) /\
    (2 ^ 31 <= word -> all_nan p = true).
Proof.
  intros Hsz Hv Hu word.
  destruct (convert_fills (T := T) (T2 := int32_t) model depth_msg label_msg Hsz) as [_ Hat].
  exists (point_of (T := T) (T2 := int32_t) model depth_msg label_msg v u).
  split; [apply Hat; assumption|].
  assert (Hneg : is_negative (label_at (T2 := int32_t) label_msg v u) = (2 ^ 31 <=? word)).
  { unfold is_negative, label_at. cbn [sizeof load pixel_int32 label_value label_int32 int32_val].
    fold word. pose proof (read_le_4_range (data label_msg)
                             (4 * (v * to_int (step label_msg / 4) + u))) as Hr.
    fold word in Hr. unfold to_int.
    destruct (Z.leb_spec (2 ^ 31) word) as [Hhi | Hlo].
    - apply Z.ltb_lt.
      replace ((word + 2 ^ 31) mod 2 ^ 32) with (word + 2 ^ 31 - 2 ^ 32); [lia|].
      apply Z.mod_unique with (q := 1); lia.
    - apply Z.ltb_ge. rewrite Z.mod_small by lia. lia. }
  split; [|split; [exact Hneg|]].
  - unfold point_of.
    assert (Hlab : as_uint32 (label_at (T2 := int32_t) label_msg v u) = word).
    { unfold label_at. cbn [sizeof pixel_int32]. apply int32_label_word. }
    unfold convert_point. destruct (negb _ || _); exact Hlab.
  - intros Hhi. unfold point_of.
    rewrite convert_point_invalid; [reflexivity|].
    right. rewrite Hneg. apply Z.leb_le. exact Hhi.
Qed.

End MorePixels.

(** A finite float minus itself is plus zero. *)
Lemma F32_sub_diag (f : float) : SFis_finite f = true -> F32.sub f f = S754_zero false.
Proof.
  destruct f as [s | s | | s m e]; try discriminate; intros _.
  - destruct s; reflexivity.
  - unfold F32.sub, SFsub. rewrite Z.sub_diag. reflexivity.
Qed.

(** Zero times a finite float is a zero. *)
Lemma F32_mul_zero_l (z g : float) :
  SFis_zero z = true -> SFis_finite g = true -> SFis_zero (F32.mul z g) = true.
Proof.
  destruct z; try discriminate. destruct g; try discriminate; reflexivity.
Qed.

Section PrincipalPoint.

Context {libs : VisionLibs}.
Context {T T2 : Type}.
Context {PT : PixelType T} {DT : DepthType T} {traits : DepthTraits T}.
Context {PT2 : PixelType T2} {LT : LabelType T2}.

(** A valid pixel on the column of the principal point ([center_x] is the
    float of [u]) gets [x] zero, and one on its row gets [y] zero,
    provided the depth sample and the constant are finite floats. *)
Theorem principal_pixel_projects_to_zero (model : PinholeCameraModel)
  (depth_msg label_msg : Image) (v u : Z) :
  well_sized depth_msg ->
  0 <= v < height depth_msg -> 0 <= u < width depth_msg ->
  valid (depth_at (T := T) depth_msg v u) = true ->
  is_negative (label_at (T2 := T2) label_msg v u) = false ->
  SFis_finite (as_float (depth_at (T := T) depth_msg v u)) = true ->
  exists p,
    nth_error (points (convert (T := T) (T2 := T2) model depth_msg label_msg
                               (new_cloud depth_msg)))
              (Z.to_nat (v * width depth_msg + u)) = Some p /\
    (center_x_of model = F32.of_Z u -> SFis_finite (center_x_of model) = true ->
     SFis_finite (constant_x_of (T := T) model) = true -> SFis_zero (pt_x p) = true) /\
    (center_y_of model = F32.of_Z v -> SFis_finite (center_y_of model) = true ->
     SFis_finite (constant_y_of (T := T) model) = true -> SFis_zero (pt_y p) = true).
Proof.
  intros Hsz Hv Hu Hvalid Hlabel Hdepth.
  destruct (convert_fills (T := T) (T2 := T2) model depth_msg label_msg Hsz) as [_ Hat].
  exists (point_of (T := T) (T2 := T2) model depth_msg label_msg v u).
  split; [apply Hat; assumption|].
  unfold point_of. rewrite (convert_point_valid _ _ _ _ _ _ _ _ Hvalid Hlabel).
  cbn [pt_x pt_y].
  split; intros Hc Hfin Hk; rewrite Hc in *; rewrite F32_sub_diag by exact Hfin;
    apply F32_mul_zero_l; try exact Hk; apply F32_mul_zero_l; try exact Hdepth; reflexivity.
Qed.

End PrincipalPoint.

(* ================================================================== *)
(** * The callback over a sequence of triples *)
(* ================================================================== *)

Section Histories.

Context {libs : VisionLibs}.
Context {traits_uint16 : DepthTraits uint16_t} {traits_float : DepthTraits float}.

(** A published cloud of an image without rows or without columns has no
    points. *)
Theorem empty_image_empty_cloud (self : Nodelet)
  (depth_msg label_msg_in : Image) (info_msg : CameraInfo) (c : PointCloud2) :
  snd (imageCb self depth_msg label_msg_in info_msg) = Published c ->
  height depth_msg = 0 \/ width depth_msg = 0 ->
  points c = [].
Proof.
  intros Hpub Hzero.
  destruct (published_cloud_is_convert self depth_msg label_msg_in info_msg c Hpub)
    as (label_msg & _ & Hc).
  cbv zeta in Hc.
  destruct (select_convert _ _) as [[| | |]|]; [..|contradiction]; subst c;
    apply convert_empty; exact Hzero.
Qed.

Lemma imageCb_frames_differ (self : Nodelet) (t : Image * Image * CameraInfo) :
  frames_differ t = true ->
  (let '(d, l, i) := t in imageCb self d l i) = (self, NotPublished FrameIdMismatch).
Proof.
  destruct t as [[d l] i]. unfold frames_differ, imageCb. intros ->. reflexivity.
Qed.

(** A triple whose frame ids differ leaves no trace: a history with it
    and the history without it end in the same nodelet state. *)
Theorem mismatched_triple_is_skipped (self : Nodelet)
  (before after : list (Image * Image * CameraInfo)) (t : Image * Image * CameraInfo) :
  frames_differ t = true ->
  run self (before ++ t :: after)%list = run self (before ++ after)%list.
Proof.
  intros Hdiff. unfold run. rewrite !fold_left_app. cbn [fold_left].
  pose proof (imageCb_frames_differ
                (fold_left (fun s t0 => let '(d, l, i) := t0 in fst (imageCb s d l i)) before self)
                t Hdiff) as Hskip.
  destruct t as [[d l] i]. rewrite Hskip. reflexivity.
Qed.

(** After a triple whose frame ids agree the camera model is the working
    model of that triple, whether or not a cloud was published; its
    projection parameters do not depend on the history before it. *)
Theorem model_follows_last_triple {contract : VisionLibsSpec libs} (self other : Nodelet)
  (history : list (Image * Image * CameraInfo))
  (depth_msg label_msg_in : Image) (info_msg : CameraInfo) :
  frames_differ (depth_msg, label_msg_in, info_msg) = false ->
  model_ (run self (history ++ [(depth_msg, label_msg_in, info_msg)])%list) =
    working_model (run self history) depth_msg label_msg_in info_msg /\
  same_intrinsics (model_ (run self (history ++ [(depth_msg, label_msg_in, info_msg)])%list))
                  (working_model other depth_msg label_msg_in info_msg).
Proof.
  intros Hsame.
  assert (Hstep : model_ (run self (history ++ [(depth_msg, label_msg_in, info_msg)])%list) =
                  working_model (run self history) depth_msg label_msg_in info_msg).
  { unfold run. rewrite fold_left_app. cbn [fold_left].
    unfold imageCb, working_model. unfold frames_differ in Hsame. rewrite Hsame.
    destruct (reconcile _ depth_msg label_msg_in info_msg) as [model2 reconciled].
    reflexivity. }
  split; [exact Hstep|].
  rewrite Hstep. apply working_model_any_state.
Qed.

End Histories.

Section Composition.

Context {libs : VisionLibs}.
Context {traits_uint16 : DepthTraits uint16_t} {traits_float : DepthTraits float}.

(** The callback as the composition of its stages: a published cloud is
    [convert] with 32-bit labels, instantiated by the depth encoding
    alone, run on the working camera model, the depth image, the label
    image that [toCvCopy] made of the reconciled one, and the fresh cloud
    of the depth image. *)
Theorem published_cloud_value {contract : VisionLibsSpec libs} (self : Nodelet)
  (depth_msg label_msg_in : Image) (info_msg : CameraInfo) (c : PointCloud2) :
  snd (imageCb self depth_msg label_msg_in info_msg) = Published c ->
  exists reconciled cv,
    snd (reconcile (fromCameraInfo (model_ self) info_msg) depth_msg label_msg_in info_msg)
      = inr reconciled /\
    toCvCopy reconciled TYPE_32SC1 = Some cv /\
    let model := working_model self depth_msg label_msg_in info_msg in
    ((encoding depth_msg = TYPE_16UC1 /\
      c = convert (T := uint16_t) (T2 := int32_t) model depth_msg (toImageMsg cv)
                  (new_cloud depth_msg)) \/
     (encoding depth_msg = TYPE_32FC1 /\
      c = convert (T := float) (T2 := int32_t) model depth_msg (toImageMsg cv)
                  (new_cloud depth_msg))).
Proof.
  intros Hpub.
  destruct (published_cloud_is_convert self depth_msg label_msg_in info_msg c Hpub)
    as (label_msg & Hprep & Hc).
  cbv zeta in Hc.
  unfold prepared_label in Hprep.
  destruct (negb (String.eqb _ _)); [discriminate|].
  destruct (snd (reconcile _ depth_msg label_msg_in info_msg)) as [e | reconciled];
    [discriminate|].
  simpl in Hprep.
  pose proof (normalize_encoding reconciled label_msg Hprep) as Henc.
  rewrite normalize_unfold in Hprep.
  destruct (toCvCopy reconciled TYPE_32SC1) as [cv|] eqn:Ecopy; [|discriminate].
  simpl in Hprep. inversion Hprep; subst label_msg.
  exists reconciled, cv. split; [reflexivity|]. split; [exact Ecopy|].
  cbv zeta. rewrite Henc in Hc. unfold select_convert in Hc.
  destruct (String.eqb (encoding depth_msg) TYPE_16UC1) eqn:D16.
  - left. apply String.eqb_eq in D16. split; [exact D16 | exact Hc].
  - destruct (String.eqb (encoding depth_msg) TYPE_32FC1) eqn:D32.
    + right. apply String.eqb_eq in D32. split; [exact D32 | exact Hc].
    + contradiction.
Qed.

End Composition.

(* ================================================================== *)
(** * The further properties on concrete runs *)
(* ================================================================== *)

(** Two attachments in a row, the transport parameter changed in
    between: the second callback changes nothing. *)
Lemma second_attachment_changes_nothing :
  fst (1, params_default) <> 0 /\
  Forall (fun e : ConnectEvent => fst e <> 0) [(2, params_compressed)] /\
  connect_all (onInit params_default) [(1, params_default); (2, params_compressed)] =
  connectCb (onInit params_default) 1 params_default.
Proof.
  assert (H1 : fst (1, params_default) <> 0) by (cbn; lia).
  assert (H2 : Forall (fun e : ConnectEvent => fst e <> 0) [(2, params_compressed)])
    by (repeat constructor; cbn; lia).
  split; [exact H1|]. split; [exact H2|].
  exact (attached_consumers_keep_subscriptions (onInit params_default)
           (1, params_default) [(2, params_compressed)] H1 H2).
Defined.

(** Scenario A's depth image: 8 bytes a row, pixel (1, 3) at byte 14. *)
Lemma depthA_pixel_address :
  0 <= step depthA < 2 ^ 32 /\ step depthA mod 2 = 0 /\
  depth_at (T := uint16_t) depthA 1 3 = mk_uint16 (read_le 2 (data depthA) 14).
Proof.
  assert (Hs : 0 <= step depthA < 2 ^ 32) by (cbn; lia).
  assert (Hm : step depthA mod 2 = 0) by reflexivity.
  split; [exact Hs|]. split; [exact Hm|].
  exact (proj1 (pixel_addressing depthA 1 3 Hs) Hm).
Defined.

(** Scenario A's depth with an 8-bit label image: pixel (1, 3) keeps its
    label byte 7. *)
Lemma label8_pixel_kept :
  well_sized depthA /\
  exists p,
    nth_error (points (convert (libs := Plain.plain_libs) (T := uint16_t) (T2 := uint8_t)
                               (traits := DepthTraits_uint16)
                               modelA depthA label8 (new_cloud depthA))) 7 = Some p /\
    pt_label p = 7.
Proof.
  split; [exact well_sized_depthA|].
  destruct (uint8_label_never_invalidates (libs := Plain.plain_libs) (T := uint16_t)
              (traits := DepthTraits_uint16) modelA depthA label8 1 3 well_sized_depthA
              ltac:(cbn; lia) ltac:(cbn; lia)) as (p & Hp & Hlab & _).
  exists p. split; [exact Hp|]. rewrite Hlab. vm_compute. reflexivity.
Defined.

(** Scenario B, pixel (1, 2): the label word [0xFFFFFFFF] is kept and its
    top bit makes the point NaN. *)
Lemma scenarioB_label_word :
  well_sized depthA /\
  exists p,
    nth_error (points (plain_convert_uint16_int32 modelA depthA labelB (new_cloud depthA))) 6
      = Some p /\
    pt_label p = 0xFFFFFFFF /\ all_nan p = true.
Proof.
  split; [exact well_sized_depthA|].
  destruct (int32_label_word_kept (libs := Plain.plain_libs) (T := uint16_t)
              (traits := DepthTraits_uint16) modelA depthA labelB 1 2 well_sized_depthA
              ltac:(cbn; lia) ltac:(cbn; lia)) as (p & Hp & Hlab & _ & Hnan).
  exists p. split; [exact Hp|]. split.
  - rewrite Hlab. vm_compute. reflexivity.
  - apply Hnan. vm_compute. discriminate.
Defined.

(** Scenario A, pixel (0, 2), on the column of [cx = 2]: [x] is zero. *)
Lemma scenarioA_principal_column :
  well_sized depthA /\
  center_x_of (libs := Plain.plain_libs) modelA = F32.of_Z 2 /\
  exists p,
    nth_error (points (plain_convert_uint16_int32 modelA depthA labelA (new_cloud depthA))) 2
      = Some p /\
    SFis_zero (pt_x p) = true.
Proof.
  assert (Hc : center_x_of (libs := Plain.plain_libs) modelA = F32.of_Z 2)
    by (vm_compute; reflexivity).
  assert (Hv : valid (DepthTraits := DepthTraits_uint16)
                     (depth_at (T := uint16_t) depthA 0 2) = true)
    by (vm_compute; reflexivity).
  assert (Hl : is_negative (label_at (T2 := int32_t) labelA 0 2) = false)
    by (vm_compute; reflexivity).
  assert (Hf : SFis_finite (as_float (depth_at (T := uint16_t) depthA 0 2)) = true)
    by (vm_compute; reflexivity).
  split; [exact well_sized_depthA|]. split; [exact Hc|].
  destruct (principal_pixel_projects_to_zero (libs := Plain.plain_libs)
              (T := uint16_t) (T2 := int32_t) (traits := DepthTraits_uint16)
              modelA depthA labelA 0 2 well_sized_depthA
              ltac:(cbn; lia) ltac:(cbn; lia) Hv Hl Hf) as (p & Hp & Hx & _).
  exists p. split; [exact Hp|].
  apply Hx; [exact Hc | vm_compute; reflexivity | vm_compute; reflexivity].
Defined.

(** A depth image without pixels is published as a cloud without points. *)
Lemma empty_triple_published_empty :
  exists c,
    snd (plain_imageCb idle depth_empty label_empty infoA) = Published c /\
    points c = [].
Proof.
  eexists. split; [vm_compute; reflexivity|].
  apply (empty_image_empty_cloud (libs := Plain.plain_libs)
           (traits_uint16 := DepthTraits_uint16) (traits_float := DepthTraits_float)
           idle depth_empty label_empty infoA).
  - vm_compute. reflexivity.
  - left. reflexivity.
Defined.

(** Scenario C, then a triple with a foreign label frame, then scenario
    A: the same state as without the foreign triple. *)
Lemma foreign_triple_skipped :
  frames_differ (depthA, label_foreign, infoA) = true /\
  run (libs := Plain.plain_libs)
      (traits_uint16 := DepthTraits_uint16) (traits_float := DepthTraits_float) idle
      ([(depthC, labelC, infoC)] ++ (depthA, label_foreign, infoA) :: [(depthA, labelA, infoA)])%list =
  run (libs := Plain.plain_libs)
      (traits_uint16 := DepthTraits_uint16) (traits_float := DepthTraits_float) idle
      ([(depthC, labelC, infoC)] ++ [(depthA, labelA, infoA)])%list.
Proof.
  assert (Hd : frames_differ (depthA, label_foreign, infoA) = true) by reflexivity.
  split; [exact Hd|].
  exact (mismatched_triple_is_skipped (libs := Plain.plain_libs)
           (traits_uint16 := DepthTraits_uint16) (traits_float := DepthTraits_float)
           idle [(depthC, labelC, infoC)] [(depthA, labelA, infoA)]
           (depthA, label_foreign, infoA) Hd).
Defined.

(** After scenario A then scenario C the model has scenario C's scaled
    intrinsics, as on an idle nodelet. *)
Lemma scenarioC_model_after_scenarioA :
  VisionLibsSpec Plain.plain_libs /\
  frames_differ (depthC, labelC, infoC) = false /\
  same_intrinsics (libs := Plain.plain_libs)
    (model_ (run (libs := Plain.plain_libs)
                 (traits_uint16 := DepthTraits_uint16) (traits_float := DepthTraits_float)
                 idle ([(depthA, labelA, infoA)] ++ [(depthC, labelC, infoC)])%list))
    (working_model (libs := Plain.plain_libs) idle depthC labelC infoC).
Proof.
  assert (Hs : frames_differ (depthC, labelC, infoC) = false) by reflexivity.
  split; [exact plain_contract|]. split; [exact Hs|].
  exact (proj2 (model_follows_last_triple (libs := Plain.plain_libs)
                  (contract := plain_contract)
                  (traits_uint16 := DepthTraits_uint16) (traits_float := DepthTraits_float)
                  idle idle [(depthA, labelA, infoA)] depthC labelC infoC Hs)).
Defined.

(** Scenario A is published as the 16-bit, 32-bit-label conversion of the
    depth image and the copy of the label image. *)
Lemma scenarioA_cloud_value :
  VisionLibsSpec Plain.plain_libs /\
  snd (plain_imageCb idle depthA labelA infoA) =
    Published (plain_convert_uint16_int32 modelA depthA labelA (new_cloud depthA)) /\
  exists reconciled cv,
    snd (reconcile (libs := Plain.plain_libs) modelA depthA labelA infoA) = inr reconciled /\
    toCvCopy (VisionLibs := Plain.plain_libs) reconciled TYPE_32SC1 = Some cv /\
    plain_convert_uint16_int32 modelA depthA labelA (new_cloud depthA) =
    plain_convert_uint16_int32 (working_model (libs := Plain.plain_libs) idle depthA labelA infoA)
      depthA (toImageMsg (VisionLibs := Plain.plain_libs) cv) (new_cloud depthA).
Proof.
  assert (Hpub : snd (plain_imageCb idle depthA labelA infoA) =
                 Published (plain_convert_uint16_int32 modelA depthA labelA (new_cloud depthA)))
    by (vm_compute; reflexivity).
  split; [exact plain_contract|]. split; [exact Hpub|].
  destruct (published_cloud_value (libs := Plain.plain_libs) (contract := plain_contract)
              (traits_uint16 := DepthTraits_uint16) (traits_float := DepthTraits_float)
              idle depthA labelA infoA _ Hpub)
    as (reconciled & cv & Hrec & Hcv & [[_ Hc] | [Henc _]]).
  - exists reconciled, cv. split; [exact Hrec|]. split; [exact Hcv | exact Hc].
  - discriminate Henc.
Defined.

(* ================================================================== *)
(** * Where [convert] reads its samples *)
(* ================================================================== *)

Section PaddedRows.

Context {libs : VisionLibs}.
Context {traits_uint16 : DepthTraits uint16_t} {traits_float : DepthTraits float}.

(** The point [convert] writes for pixel [(v, u)] is computed from the
    depth sample at byte [v * step + u * sizeof(T)] of the depth buffer
    and the 32-bit label at byte [v * step + 4 * u] of the label buffer,
    each step its own image's, whenever the steps are multiples of the
    sample sizes: rows may be padded. *)
Theorem convert_reads_padded_rows (model : PinholeCameraModel)
  (depth_msg label_msg : Image) (v u : Z) :
  well_sized depth_msg ->
  0 <= v < height depth_msg -> 0 <= u < width depth_msg ->
  0 <= step depth_msg < 2 ^ 32 -> 0 <= step label_msg < 2 ^ 32 ->
  step label_msg mod 4 = 0 ->
  let label := mk_int32 (to_int (read_le 4 (data label_msg) (v * step label_msg + 4 * u))) in
  (step depth_msg mod 2 = 0 ->
   nth_error (points (convert (T := uint16_t) (T2 := int32_t) model depth_msg label_msg
                              (new_cloud depth_msg)))
             (Z.to_nat (v * width depth_msg + u)) =
   Some (convert_point (T := uint16_t) (T2 := int32_t)
           (center_x_of model) (center_y_of model)
           (constant_x_of (T := uint16_t) model) (constant_y_of (T := uint16_t) model) v u
           (mk_uint16 (read_le 2 (data depth_msg) (v * step depth_msg + 2 * u))) label)) /\
  (step depth_msg mod 4 = 0 ->
   nth_error (points (convert (T := float) (T2 := int32_t) model depth_msg label_msg
                              (new_cloud depth_msg)))
             (Z.to_nat (v * width depth_msg + u)) =
   Some (convert_point (T := float) (T2 := int32_t)
           (center_x_of model) (center_y_of model)
           (constant_x_of (T := float) model) (constant_y_of (T := float) model) v u
           (F32.of_bits (read_le 4 (data depth_msg) (v * step depth_msg + 4 * u))) label)).
Proof.
  intros Hsz Hv Hu Hsd Hsl Hl4 label.
  destruct (pixel_addressing depth_msg v u Hsd) as (Hd16 & Hd32 & _ & _).
  destruct (pixel_addressing label_msg v u Hsl) as (_ & _ & Hl32 & _).
  split; intros Hd.
  - destruct (convert_fills (T := uint16_t) (T2 := int32_t) model depth_msg label_msg Hsz)
      as [_ Hat].
    rewrite (Hat v u Hv Hu). unfold point_of.
    rewrite (Hd16 Hd), (Hl32 Hl4). reflexivity.
  - destruct (convert_fills (T := float) (T2 := int32_t) model depth_msg label_msg Hsz)
      as [_ Hat].
    rewrite (Hat v u Hv Hu). unfold point_of.
    rewrite (Hd32 Hd), (Hl32 Hl4). reflexivity.
Qed.

End PaddedRows.

(** Scenario A, pixel (1, 3): the depth sample is the 16-bit word at byte
    14 of the depth buffer, the label the 32-bit word at byte 28 of the
    label buffer. *)
Lemma scenarioA_sample_bytes :
  well_sized depthA /\
  step depthA mod 2 = 0 /\ step labelA mod 4 = 0 /\
  nth_error (points (plain_convert_uint16_int32 modelA depthA labelA (new_cloud depthA))) 7 =
  Some (convert_point (T := uint16_t) (T2 := int32_t) (traits := DepthTraits_uint16)
          (center_x_of (libs := Plain.plain_libs) modelA)
          (center_y_of (libs := Plain.plain_libs) modelA)
          (constant_x_of (libs := Plain.plain_libs) (T := uint16_t)
                         (traits := DepthTraits_uint16) modelA)
          (constant_y_of (libs := Plain.plain_libs) (T := uint16_t)
                         (traits := DepthTraits_uint16) modelA)
          1 3
          (mk_uint16 (read_le 2 (data depthA) 14))
          (mk_int32 (to_int (read_le 4 (data labelA) 28)))).
Proof.
  assert (Hd : step depthA mod 2 = 0) by reflexivity.
  assert (Hl : step labelA mod 4 = 0) by reflexivity.
  split; [exact well_sized_depthA|]. split; [exact Hd|]. split; [exact Hl|].
  exact (proj1 (convert_reads_padded_rows (libs := Plain.plain_libs)
                  (traits_uint16 := DepthTraits_uint16) (traits_float := DepthTraits_float)
                  modelA depthA labelA 1 3 well_sized_depthA
                  ltac:(cbn; lia) ltac:(cbn; lia) ltac:(cbn; lia) ltac:(cbn; lia) Hl) Hd).
Defined.
